(** * Log analysis for the v0.8.0 release investigation

    A shallow embedding of [analyze_logs.py] and [generate_report.py],
    followed by the properties checked against them.

    Modelling conventions.
    - Text is [string] over 8-bit characters; the logs are taken to be ASCII,
      so [\d] is [0-9], [str.lower] touches [A-Z] only, and [str.strip]
      removes the ASCII characters for which [str.isspace] holds.
    - Python integers are [Z]; Python floats that hold durations are exact
      rationals [Q] kept in lowest terms (the program holds the nearest double).
    - An exception that leaves a function is a [Raise] result; a function
      that prints gives the lines it printed along with its result. *)

From Stdlib Require Import ZArith QArith Qreduction List String Ascii Bool Lia.
From Stdlib Require Import Sorting.Sorted Sorting.Permutation.
From Stdlib Require Import Numbers.DecimalString Lqa.
Import ListNotations.

Set Warnings "-register-all".

Local Open Scope string_scope.
Local Open Scope Z_scope.

(** ** Exceptions *)

Inductive exn : Type :=
| TypeError
| ZeroDivisionError
| KeyError
| OSError.

Inductive result (A : Type) : Type :=
| Ok (a : A)
| Raise (e : exn).

Arguments Ok {A} a.
Arguments Raise {A} e.

Definition bind {A B : Type} (r : result A) (k : A -> result B) : result B :=
  match r with
  | Ok a => k a
  | Raise e => Raise e
  end.

Notation "x <- r ;; k" := (bind r (fun x => k))
  (at level 61, r at next level, right associativity).

(** ** Strings as Python uses them here *)

Module Str.

(** [s.startswith(prefix)] *)
Fixpoint starts_with (prefix s : string) : bool :=
  match prefix with
  | EmptyString => true
  | String a prefix' =>
      match s with
      | EmptyString => false
      | String c s' => Ascii.eqb a c && starts_with prefix' s'
      end
  end.

(** [needle in hay] *)
Fixpoint contains (needle hay : string) : bool :=
  starts_with needle hay
  || match hay with
     | EmptyString => false
     | String _ hay' => contains needle hay'
     end.

Definition code (c : ascii) : N := N_of_ascii c.

Definition is_digit (c : ascii) : bool :=
  ((48 <=? code c) && (code c <=? 57))%N.

(** ASCII characters with [str.isspace]: TAB LF VT FF CR, FS GS RS US, SPACE. *)
Definition is_space (c : ascii) : bool :=
  (((9 <=? code c) && (code c <=? 13))
   || ((28 <=? code c) && (code c <=? 32)))%N.

Fixpoint lstrip (s : string) : string :=
  match s with
  | EmptyString => EmptyString
  | String c s' => if is_space c then lstrip s' else s
  end.

Fixpoint rstrip (s : string) : string :=
  match s with
  | EmptyString => EmptyString
  | String c s' =>
      match rstrip s' with
      | EmptyString => if is_space c then EmptyString else String c EmptyString
      | r => String c r
      end
  end.

(** [s.strip()] *)
Definition strip (s : string) : string := rstrip (lstrip s).

Definition lower_char (c : ascii) : ascii :=
  if ((65 <=? code c) && (code c <=? 90))%N
  then ascii_of_N (code c + 32) else c.

(** [s.lower()] *)
Fixpoint lower (s : string) : string :=
  match s with
  | EmptyString => EmptyString
  | String c s' => String (lower_char c) (lower s')
  end.

Definition upper_char (c : ascii) : ascii :=
  if ((97 <=? code c) && (code c <=? 122))%N
  then ascii_of_N (code c - 32) else c.

(** [s.upper()] *)
Fixpoint upper (s : string) : string :=
  match s with
  | EmptyString => EmptyString
  | String c s' => String (upper_char c) (upper s')
  end.

(** [c * n] *)
Fixpoint times (c : ascii) (n : nat) : string :=
  match n with
  | O => EmptyString
  | S n' => String c (times c n')
  end.

(** [s.replace(old, new)] for a one-character [old] *)
Fixpoint replace_char (old : ascii) (new : string) (s : string) : string :=
  match s with
  | EmptyString => EmptyString
  | String c s' =>
      if Ascii.eqb c old
      then new ++ replace_char old new s'
      else String c (replace_char old new s')
  end.

(** [not s] *)
Definition is_empty (s : string) : bool :=
  match s with
  | EmptyString => true
  | String _ _ => false
  end.

(** [str(n)] for an integer *)
Definition of_Z (n : Z) : string := NilZero.string_of_int (Z.to_int n).

End Str.

(** ** The regular expressions of [parse_timestamp]

    The three patterns only use [\d], literal characters and one greedy
    [\d+]; [re.search] returns the leftmost match, and at one start position
    the backtracking matcher prefers the longest run of digits. *)

Module Re.

Inductive atom : Type :=
| Digit                (* \d *)
| Lit (c : ascii)      (* a literal character *)
| Digits1.             (* \d+ , greedy *)

Definition pattern : Type := list atom.

(** [\d+] followed by what [rest] matches: a digit, then by preference more
    digits, and only when that fails the rest of the pattern. *)
Fixpoint plus_digits (rest : string -> option string) (s : string)
  : option string :=
  match s with
  | String c s' =>
      if Str.is_digit c then
        match plus_digits rest s' with
        | Some m => Some (String c m)
        | None => option_map (String c) (rest s')
        end
      else None
  | EmptyString => None
  end.

(** The text matched by [p] at the start of [s], if any. *)
Fixpoint match_here (p : pattern) (s : string) : option string :=
  match p with
  | [] => Some EmptyString
  | Digit :: p' =>
      match s with
      | String c s' =>
          if Str.is_digit c then option_map (String c) (match_here p' s')
          else None
      | EmptyString => None
      end
  | Lit a :: p' =>
      match s with
      | String c s' =>
          if Ascii.eqb c a then option_map (String c) (match_here p' s')
          else None
      | EmptyString => None
      end
  | Digits1 :: p' => plus_digits (match_here p') s
  end.

(** [re.search(p, s).group(1)], the whole pattern being its group 1. *)
Fixpoint search (p : pattern) (s : string) : option string :=
  match match_here p s with
  | Some m => Some m
  | None =>
      match s with
      | EmptyString => None
      | String _ s' => search p s'
      end
  end.

Definition d2 : pattern := [Digit; Digit].
Definition d4 : pattern := [Digit; Digit; Digit; Digit].

(** [\d{2}:\d{2}:\d{2}\.\d+] *)
Definition time_only : pattern :=
  (d2 ++ [Lit ":"] ++ d2 ++ [Lit ":"] ++ d2 ++ [Lit "."; Digits1])%list.

(** [\d{4}-\d{2}-\d{2}] *)
Definition ymd : pattern :=
  (d4 ++ [Lit "-"] ++ d2 ++ [Lit "-"] ++ d2)%list.

(** [\d{4}-\d{2}-\d{2}T\d{2}:\d{2}:\d{2}\.\d+Z] *)
Definition iso : pattern :=
  (ymd ++ [Lit "T"] ++ time_only ++ [Lit "Z"])%list.

(** [\d{4}-\d{2}-\d{2} \d{2}:\d{2}:\d{2}\.\d+] *)
Definition standard : pattern := (ymd ++ [Lit " "] ++ time_only)%list.

End Re.

(** ** Dates and times

    The part of Python's [datetime] that [parse_timestamp] and the duration
    computation rely on, after [Lib/datetime.py]. *)

Module Datetime.

Record date : Type := mkdate { year : Z; month : Z; day : Z }.

Record time : Type :=
  mktime { hour : Z; minute : Z; second : Z; microsecond : Z }.

(** The only zone the program can build is [timezone.utc]. *)
Inductive timezone : Type := utc.

(** [tzinfo = None] is a naive datetime. *)
Record datetime : Type :=
  mkdatetime { date_of : date; time_of : time; tzinfo : option timezone }.

Definition is_leap (y : Z) : bool :=
  (y mod 4 =? 0) && (negb (y mod 100 =? 0) || (y mod 400 =? 0)).

Definition days_before_year (y : Z) : Z :=
  let y1 := y - 1 in y1 * 365 + y1 / 4 - y1 / 100 + y1 / 400.

Definition days_in_month (y m : Z) : Z :=
  if (m =? 2) && is_leap y then 29
  else nth (Z.to_nat m) [-1; 31; 28; 31; 30; 31; 30; 31; 31; 30; 31; 30; 31] 0.

Definition days_before_month (y m : Z) : Z :=
  nth (Z.to_nat m) [-1; 0; 31; 59; 90; 120; 151; 181; 212; 243; 273; 304; 334] 0
  + (if (2 <? m) && is_leap y then 1 else 0).

Definition ymd2ord (y m d : Z) : Z :=
  days_before_year y + days_before_month y m + d.

Definition toordinal (d : date) : Z := ymd2ord (year d) (month d) (day d).

Definition check_date_fields (y m d : Z) : bool :=
  (1 <=? y) && (y <=? 9999) && (1 <=? m) && (m <=? 12)
  && (1 <=? d) && (d <=? days_in_month y m).

Definition check_time_fields (h mi s us : Z) : bool :=
  (0 <=? h) && (h <=? 23) && (0 <=? mi) && (mi <=? 59)
  && (0 <=? s) && (s <=? 59) && (0 <=? us) && (us <=? 999999).

(** [datetime.combine(d, t)] for a naive [t] *)
Definition combine (d : date) (t : time) : datetime := mkdatetime d t None.

(** Microseconds since the start of day 0 of the proleptic calendar, the
    zone not taken into account. *)
Definition micros (a : datetime) : Z :=
  let t := time_of a in
  (toordinal (date_of a) * 86400
   + (second t + minute t * 60 + hour t * 3600)) * 1000000
  + microsecond t.

(** A [timedelta], held as its number of microseconds. *)
Definition timedelta : Type := Z.

(** [a - b]: both naive or both in UTC, else
    [TypeError: can't subtract offset-naive and offset-aware datetimes]. *)
Definition sub (a b : datetime) : result timedelta :=
  match tzinfo a, tzinfo b with
  | None, None => Ok (micros a - micros b)
  | Some utc, Some utc => Ok (micros a - micros b)
  | _, _ => Raise TypeError
  end.

(** [td.total_seconds()] *)
Definition total_seconds (td : timedelta) : Q := Qred (td # 1000000).

(** *** Reading fields out of text; [None] stands for [ValueError]. *)

Definition digit_val (c : ascii) : Z := Z.of_N (Str.code c) - 48.

(** [int(ds)] for a string of decimal digits *)
Definition int_of (ds : string) : Z :=
  (fix go (acc : Z) (s : string) : Z :=
     match s with
     | EmptyString => acc
     | String c s' => go (acc * 10 + digit_val c) s'
     end) 0 ds.

(** exactly [n] digits at the front *)
Fixpoint take_digits (n : nat) (s : string) : option (string * string) :=
  match n with
  | O => Some (EmptyString, s)
  | S n' =>
      match s with
      | String c s' =>
          if Str.is_digit c then
            match take_digits n' s' with
            | Some (ds, rest) => Some (String c ds, rest)
            | None => None
            end
          else None
      | EmptyString => None
      end
  end.

(** the longest run of digits at the front *)
Fixpoint span_digits (s : string) : string * string :=
  match s with
  | String c s' =>
      if Str.is_digit c
      then let (ds, rest) := span_digits s' in (String c ds, rest)
      else (EmptyString, s)
  | EmptyString => (EmptyString, EmptyString)
  end.

Definition number (n : nat) (s : string) : option (Z * string) :=
  match take_digits n s with
  | Some (ds, rest) => Some (int_of ds, rest)
  | None => None
  end.

Definition expect (c : ascii) (s : string) : option string :=
  match s with
  | String c' s' => if Ascii.eqb c' c then Some s' else None
  | EmptyString => None
  end.

Definition any_char (s : string) : option string :=
  match s with
  | String _ s' => Some s'
  | EmptyString => None
  end.

Notation "'let*' x ':=' e 'in' k" :=
  (match e with Some x => k | None => None end)
  (at level 10, x pattern, e at level 100, k at level 200).

(** [YYYY-MM-DD] at the front, not yet range-checked *)
Definition read_ymd (s : string) : option (Z * Z * Z * string) :=
  let* (y, s) := number 4 s in
  let* s := expect "-" s in
  let* (m, s) := number 2 s in
  let* s := expect "-" s in
  let* (d, s) := number 2 s in
  Some (y, m, d, s).

(** [HH:MM:SS.] at the front, not yet range-checked *)
Definition read_hms (s : string) : option (Z * Z * Z * string) :=
  let* (h, s) := number 2 s in
  let* s := expect ":" s in
  let* (mi, s) := number 2 s in
  let* s := expect ":" s in
  let* (sec, s) := number 2 s in
  let* s := expect "." s in
  Some (h, mi, sec, s).

(** [n] zeros *)
Fixpoint zeros (n : nat) : string :=
  match n with
  | O => EmptyString
  | S n' => String "0" (zeros n')
  end.

(** at most the first six characters *)
Definition first6 (s : string) : string := String.substring 0 6 s.

(** The fraction of [%f]: one to six digits, padded on the right to six,
    and nothing after them. *)
Definition read_fraction_f (s : string) : option Z :=
  let (ds, rest) := span_digits s in
  let n := String.length ds in
  if (Nat.leb 1 n) && (Nat.leb n 6) && Str.is_empty rest
  then Some (int_of (ds ++ zeros (6 - n)))
  else None.

(** The fraction of [fromisoformat], followed by the rest of the text.
    CPython from 3.11 on takes any number of digits and drops those after
    the sixth ([any_length = true]); before, it takes three or six. *)
Definition read_fraction_iso (any_length : bool) (s : string)
  : option (Z * string) :=
  let (ds, rest) := span_digits s in
  let n := String.length ds in
  if any_length then
    if Nat.leb 1 n
    then Some (int_of (first6 ds ++ zeros (6 - n)), rest)
    else None
  else
    if Nat.eqb n 3 || Nat.eqb n 6
    then Some (int_of (ds ++ zeros (6 - n)), rest)
    else None.

Definition pad (width : nat) (n : Z) : string :=
  let ds := Str.of_Z n in zeros (width - String.length ds) ++ ds.

(** [dt.isoformat()] *)
Definition isoformat (a : datetime) : string :=
  let d := date_of a in
  let t := time_of a in
  pad 4 (year d) ++ "-" ++ pad 2 (month d) ++ "-" ++ pad 2 (day d)
  ++ "T" ++ pad 2 (hour t) ++ ":" ++ pad 2 (minute t) ++ ":" ++ pad 2 (second t)
  ++ (if microsecond t =? 0 then EmptyString else "." ++ pad 6 (microsecond t))
  ++ match tzinfo a with
     | Some utc => "+00:00"
     | None => EmptyString
     end.

Definition make (y m d h mi s us : Z) (tz : option timezone)
  : option datetime :=
  if check_date_fields y m d && check_time_fields h mi s us
  then Some (mkdatetime (mkdate y m d) (mktime h mi s us) tz)
  else None.

(** [datetime.fromisoformat(s)] on the texts the caller can pass:
    [YYYY-MM-DD], one separator character, [HH:MM:SS.f...] and the zone
    [+00:00]. Any other text is outside the model and read as a failure. *)
Definition fromisoformat (any_length : bool) (s : string) : option datetime :=
  let* (y, m, d, s) := read_ymd s in
  let* s := any_char s in
  let* (h, mi, sec, s) := read_hms s in
  let* (us, s) := read_fraction_iso any_length s in
  if String.eqb s "+00:00" then make y m d h mi sec us (Some utc) else None.

(** [datetime.strptime(s, '%Y-%m-%d %H:%M:%S.%f')] on texts whose fields
    have the width the pattern [Re.standard] gives them. *)
Definition strptime_datetime (s : string) : option datetime :=
  let* (y, m, d, s) := read_ymd s in
  let* s := expect " " s in
  let* (h, mi, sec, s) := read_hms s in
  let* us := read_fraction_f s in
  make y m d h mi sec us None.

(** [datetime.strptime(s, '%H:%M:%S.%f').time()] on texts whose fields have
    the width the pattern [Re.time_only] gives them. *)
Definition strptime_time (s : string) : option time :=
  let* (h, mi, sec, s) := read_hms s in
  let* us := read_fraction_f s in
  if check_time_fields h mi sec us then Some (mktime h mi sec us) else None.

End Datetime.

(** ** [analyze_logs.py] *)

(** What the run takes from its surroundings: the date [datetime.now().date()]
    gives (held fixed over a run) and which [fromisoformat] it runs on. *)
Record runtime : Type :=
  mkruntime { today : Datetime.date; iso_any_fraction : bool }.

Definition patterns : list Re.pattern := [Re.iso; Re.standard; Re.time_only].

(** The body of the [try]: [None] is the [ValueError] the [except] catches. *)
Definition convert (rt : runtime) (timestamp_str : string)
  : option Datetime.datetime :=
  if Str.contains "T" timestamp_str then
    Datetime.fromisoformat (iso_any_fraction rt)
      (Str.replace_char "Z" "+00:00" timestamp_str)
  else if Str.contains " " timestamp_str then
    Datetime.strptime_datetime timestamp_str
  else
    option_map (Datetime.combine (today rt))
      (Datetime.strptime_time timestamp_str).

(** The [for pattern in patterns] loop. *)
Fixpoint parse_timestamp_loop (rt : runtime) (ps : list Re.pattern)
  (line : string) : option Datetime.datetime :=
  match ps with
  | [] => None
  | pattern :: ps' =>
      match Re.search pattern line with
      | Some timestamp_str =>
          match convert rt timestamp_str with
          | Some dt => Some dt
          | None => parse_timestamp_loop rt ps' line
          end
      | None => parse_timestamp_loop rt ps' line
      end
  end.

Definition parse_timestamp (rt : runtime) (line : string)
  : option Datetime.datetime :=
  parse_timestamp_loop rt patterns line.

(** The dictionary [results] while the lines are scanned. *)
Record scan : Type := mkscan {
  sc_error_count : Z;
  sc_warn_count : Z;
  sc_first_timestamp : option Datetime.datetime;
  sc_last_timestamp : option Datetime.datetime;
  sc_success : bool;
  sc_notable_issues : list string
}.

(** The dictionary [analyze_log_file] returns. *)
Record LogAnalysis : Type := mkLogAnalysis {
  file : string;
  error_count : Z;
  warn_count : Z;
  first_timestamp : option string;
  last_timestamp : option string;
  duration_seconds : option Q;
  success : bool;
  notable_issues : list string
}.

Definition scan0 : scan := mkscan 0 0 None None false [].

(** The four known-issue checks, in the order the source makes them. *)
Definition known_issues : list (string * string) :=
  [ ("disco box", "Disco box error");
    ("dns.iroh.link", "DNS resolution failure");
    ("pkarr publish error", "PKarr protocol error");
    ("failed to open disco box", "Failed to open disco box") ].

Definition issues_of (line : string) : list string :=
  map snd (filter (fun kv => Str.contains (fst kv) (Str.lower line)) known_issues).

(** The text ["joined"], its two double quotes included. *)
Definition joined_marker : string :=
  String "034" ("joined" ++ String "034" EmptyString).

(** One turn of [for line in lines]. *)
Definition scan_line (rt : runtime) (st : scan) (raw : string) : scan :=
  let line := Str.strip raw in
  if Str.is_empty line then st
  else
    let errors :=
      if Str.contains "ERROR" line then sc_error_count st + 1
      else sc_error_count st in
    let warns :=
      if Str.contains "WARN" line then sc_warn_count st + 1
      else sc_warn_count st in
    let '(first, last) :=
      match parse_timestamp rt line with
      | Some timestamp =>
          (match sc_first_timestamp st with
           | None => Some timestamp
           | Some t => Some t
           end,
           Some timestamp)
      | None => (sc_first_timestamp st, sc_last_timestamp st)
      end in
    let ok :=
      if Str.contains joined_marker line then true else sc_success st in
    mkscan errors warns first last ok
      (sc_notable_issues st ++ issues_of line).

Definition scan_lines (rt : runtime) (lines : list string) : scan :=
  fold_left (scan_line rt) lines scan0.

(** Lines 91-102: the duration, then the timestamps as text. *)
Definition finish (file_path : string) (st : scan) : result LogAnalysis :=
  duration <-
    match sc_first_timestamp st, sc_last_timestamp st with
    | Some t1, Some t2 =>
        td <- Datetime.sub t2 t1 ;;
        Ok (Some (Datetime.total_seconds td))
    | _, _ => Ok None
    end ;;
  Ok (mkLogAnalysis file_path
        (sc_error_count st) (sc_warn_count st)
        (option_map Datetime.isoformat (sc_first_timestamp st))
        (option_map Datetime.isoformat (sc_last_timestamp st))
        duration (sc_success st) (sc_notable_issues st)).

(** What [open(file_path, ...)] followed by [f.readlines()] does: the lines,
    or an exception whose text is [message]. *)
Inductive read_outcome : Type :=
| Lines (lines : list string)
| ReadError (message : string).

Definition analyze_log_file (rt : runtime) (file_path : string)
  (content : read_outcome) : result LogAnalysis :=
  match content with
  | ReadError e =>
      Ok (mkLogAnalysis file_path 0 0 None None None false
            ["Failed to read file: " ++ e])
  | Lines lines => finish file_path (scan_lines rt lines)
  end.

(** *** Directories *)

(** A file system entry: a file with what reading it gives, or a directory
    with its entries in the order the system lists them. *)
Inductive node : Type :=
| File (content : read_outcome)
| Dir (entries : list (string * node)).

(** [parent / name] *)
Definition join (parent name : string) : string := parent ++ "/" ++ name.

(** Reading a path that is a directory fails like any other read. *)
Definition read_node (path : string) (n : node) : read_outcome :=
  match n with
  | File content => content
  | Dir _ => ReadError ("[Errno 21] Is a directory: '" ++ path ++ "'")
  end.

Definition ends_with (suffix s : string) : bool :=
  let n := String.length s in
  let k := String.length suffix in
  Nat.leb k n && String.eqb (String.substring (n - k) k s) suffix.

(** [fnmatch] of a name against [*<infix>*.log] *)
Definition glob_log (infix name : string) : bool :=
  ends_with ".log" name
  && Str.contains infix (String.substring 0 (String.length name - 4) name).

Record TestRunAnalysis : Type := mkTestRunAnalysis {
  run_dir : string;
  cli_analysis : option LogAnalysis;
  peer_analysis : option LogAnalysis
}.

(** [analyze_log_file(files[0])] if [files] is not empty *)
Definition analyze_first (rt : runtime) (dir : string)
  (files : list (string * node)) : result (option LogAnalysis) :=
  match files with
  | [] => Ok None
  | (name, n) :: _ =>
      a <- analyze_log_file rt (join dir name) (read_node (join dir name) n) ;;
      Ok (Some a)
  end.

Definition analyze_test_run (rt : runtime) (dir : string)
  (entries : list (string * node)) : result TestRunAnalysis :=
  let cli_files := filter (fun e => glob_log "fedimint-cli" (fst e)) entries in
  let peer_files := filter (fun e => glob_log "fedimintd-peer0" (fst e)) entries in
  cli <- analyze_first rt dir cli_files ;;
  peer <- analyze_first rt dir peer_files ;;
  Ok (mkTestRunAnalysis dir cli peer).

(** [sorted(l)] under the order [leb]: a stable insertion sort. *)
Section Sorted.
Context {A : Type} (leb : A -> A -> bool).

Fixpoint insert (x : A) (l : list A) : list A :=
  match l with
  | [] => [x]
  | y :: l' => if leb x y then x :: l else y :: insert x l'
  end.

Fixpoint sorted (l : list A) : list A :=
  match l with
  | [] => []
  | x :: l' => insert x (sorted l')
  end.
End Sorted.

Record VersionSummary : Type := mkVersionSummary {
  total_runs : Z;
  successful_runs : Z;
  avg_duration : option Q;
  median_duration : option Q;
  min_duration : option Q;
  max_duration : option Q;
  total_errors : Z;
  total_warnings : Z
}.

Record VersionDirectoryAnalysis : Type := mkVersionDirectoryAnalysis {
  version_dir : string;
  test_runs : list TestRunAnalysis;
  summary : VersionSummary
}.

(** What the loop over the run directories carries along. *)
Record tally : Type := mktally {
  t_test_runs : list TestRunAnalysis;
  t_total_runs : Z;
  t_successful_runs : Z;
  t_total_errors : Z;
  t_total_warnings : Z;
  t_durations : list Q
}.

Definition tally0 : tally := mktally [] 0 0 0 0 [].

(** Lines 146-163: one run is added to the tally. *)
Definition record_run (t : tally) (run_analysis : TestRunAnalysis) : tally :=
  let t1 :=
    mktally (t_test_runs t ++ [run_analysis]) (t_total_runs t + 1)
      (t_successful_runs t) (t_total_errors t) (t_total_warnings t)
      (t_durations t) in
  let t2 :=
    match cli_analysis run_analysis with
    | Some cli =>
        mktally (t_test_runs t1) (t_total_runs t1)
          (if success cli then t_successful_runs t1 + 1
           else t_successful_runs t1)
          (t_total_errors t1 + error_count cli)
          (t_total_warnings t1 + warn_count cli)
          (match duration_seconds cli with
           | Some d => t_durations t1 ++ [d]
           | None => t_durations t1
           end)
    | None => t1
    end in
  match peer_analysis run_analysis with
  | Some peer =>
      mktally (t_test_runs t2) (t_total_runs t2) (t_successful_runs t2)
        (t_total_errors t2 + error_count peer)
        (t_total_warnings t2 + warn_count peer)
        (t_durations t2)
  | None => t2
  end.

Definition Qsum (l : list Q) : Q := fold_left Qplus l 0%Q.

(** Lines 165-171: the four statistics of a non-empty list of durations. *)
Definition duration_statistics (durations : list Q)
  : option Q * option Q * option Q * option Q :=
  match durations with
  | [] => (None, None, None, None)
  | _ :: _ =>
      let sorted_durations := sorted Qle_bool durations in
      (Some (Qred (Qsum durations / inject_Z (Z.of_nat (List.length durations)))),
       Some (nth (List.length sorted_durations / 2) sorted_durations 0%Q),
       Some (hd 0%Q sorted_durations),
       Some (last sorted_durations 0%Q))
  end.

Definition summarize (t : tally) : VersionSummary :=
  let '(avg, median, lo, hi) := duration_statistics (t_durations t) in
  mkVersionSummary (t_total_runs t) (t_successful_runs t) avg median lo hi
    (t_total_errors t) (t_total_warnings t).

Definition is_test_dir (e : string * node) : bool :=
  match snd e with
  | Dir _ => Str.starts_with "test-run" (fst e)
  | File _ => false
  end.

Definition name_leb (a b : string * node) : bool := String.leb (fst a) (fst b).

(** The loop body with its exception: a run that raises ends the loop. *)
Definition visit_run (rt : runtime) (dir : string) (acc : result tally)
  (e : string * node) : result tally :=
  t <- acc ;;
  match snd e with
  | Dir entries =>
      run_analysis <- analyze_test_run rt (join dir (fst e)) entries ;;
      Ok (record_run t run_analysis)
  | File _ => Ok t
  end.

Definition analyze_version_directory (rt : runtime) (dir : string) (n : node)
  : result VersionDirectoryAnalysis :=
  match n with
  | File _ => Raise OSError
  | Dir entries =>
      let test_dirs := sorted name_leb (filter is_test_dir entries) in
      t <- fold_left (visit_run rt dir) test_dirs (Ok tally0) ;;
      Ok (mkVersionDirectoryAnalysis dir (t_test_runs t) (summarize t))
  end.

(** *** Printing

    A function that prints is a pair: the lines printed, in order, and how
    it ended. The lines printed before an exception stay printed. *)

Definition io (L A : Type) : Type := (list L * result A)%type.

Definition printed {L A : Type} (m : io L A) : list L := fst m.

Definition outcome {L A : Type} (m : io L A) : result A := snd m.

Definition ret {L A : Type} (a : A) : io L A := ([], Ok a).

(** [print(...)] of one line *)
Definition print {L : Type} (l : L) : io L unit := ([l], Ok tt).

(** A computation that prints nothing. *)
Definition lift {L A : Type} (r : result A) : io L A := ([], r).

Definition io_bind {L A B : Type} (m : io L A) (k : A -> io L B) : io L B :=
  match outcome m with
  | Ok a => (printed m ++ printed (k a), outcome (k a))%list
  | Raise e => (printed m, Raise e)
  end.

Notation "x <-- m ;; k" := (io_bind m (fun x => k))
  (at level 61, m at next level, right associativity).

Notation "m >> k" := (io_bind m (fun _ => k))
  (at level 61, right associativity).

(** [for x in l: f(x)] *)
Fixpoint for_each {L A : Type} (f : A -> io L unit) (l : list A) : io L unit :=
  match l with
  | [] => ret tt
  | x :: l' => f x >> for_each f l'
  end.

(** *** The console report of [main] *)

(** The dictionary [results]: the versions found, in the order of [versions]. *)
Definition results_t : Type := list (string * VersionDirectoryAnalysis).

Fixpoint lookup {V : Type} (key : string) (d : list (string * V)) : option V :=
  match d with
  | [] => None
  | (k, v) :: d' => if String.eqb k key then Some v else lookup key d'
  end.

Definition versions : list string :=
  [ "baseline"; "v0.8.0-beta.2"; "v0.8.0-beta.2-with-n0-infra";
    "v0.8.0-beta.2-n0-only-infra" ].

(** A printed line. A line that shows numbers keeps them as numbers, one
    constructor per [print] call; how a float is laid out is not modelled. *)
Inductive console_line : Type :=
| Text (s : string)
| TotalRuns (n : Z)
| SuccessfulRuns (n : Z)
| SuccessRate (successful total : Z) (percent : Q)
| Average (x : Q)
| Median (x : Q)
| Minimum (x : Q)
| Maximum (x : Q)
| TotalErrors (n : Z)
| TotalWarnings (n : Z)
| DurationChange (duration_diff duration_pct : Q)
| ErrorChange (error_diff : Z)
| WarningChange (warn_diff : Z)
| SuccessRateChange (rate_diff : Q).

(** [a / b] on numbers: [ZeroDivisionError] when [b] is zero. *)
Definition true_div (a b : Q) : result Q :=
  if Qeq_bool b 0 then Raise ZeroDivisionError else Ok (Qred (a / b)).

(** [if x:] for a float or [None] *)
Definition truthy (x : option Q) : bool :=
  match x with
  | Some q => negb (Qeq_bool q 0)
  | None => false
  end.

(** A float to be laid out with [:.2f] or used in arithmetic; [None] gives
    [TypeError] in both. *)
Definition as_float (x : option Q) : result Q :=
  match x with
  | Some q => Ok q
  | None => Raise TypeError
  end.

(** [successful_runs / total_runs * 100] *)
Definition rate (s : VersionSummary) : result Q :=
  r <- true_div (inject_Z (successful_runs s)) (inject_Z (total_runs s)) ;;
  Ok (Qred (r * 100)).

(** Lines 183-189: one version directory after the other. *)
Fixpoint analyze_versions (rt : runtime) (root : list (string * node))
  (vs : list string) : io console_line results_t :=
  match vs with
  | [] => ret []
  | version :: vs' =>
      match lookup version root with
      | Some n =>
          print (Text ("Analyzing " ++ version ++ "...")) >>
          data <-- lift (analyze_version_directory rt version n) ;;
          rest <-- analyze_versions rt root vs' ;;
          ret ((version, data) :: rest)
      | None =>
          print (Text ("Directory " ++ version ++ " not found")) >>
          analyze_versions rt root vs'
      end
  end.

(** Lines 201-216: the block printed for one version. *)
Definition print_summary (entry : string * VersionDirectoryAnalysis)
  : io console_line unit :=
  let s := summary (snd entry) in
  print (Text (String "010" (Str.upper (fst entry)))) >>
  print (Text (Str.times "-" 40)) >>
  print (TotalRuns (total_runs s)) >>
  print (SuccessfulRuns (successful_runs s)) >>
  (pct <-- lift (rate s) ;;
   print (SuccessRate (successful_runs s) (total_runs s) pct)) >>
  (if truthy (avg_duration s) then
     print (Text "Join duration statistics:") >>
     (a <-- lift (as_float (avg_duration s)) ;; print (Average a)) >>
     (m <-- lift (as_float (median_duration s)) ;; print (Median m)) >>
     (lo <-- lift (as_float (min_duration s)) ;; print (Minimum lo)) >>
     (hi <-- lift (as_float (max_duration s)) ;; print (Maximum hi))
   else print (Text "Join duration: N/A")) >>
  print (TotalErrors (total_errors s)) >>
  print (TotalWarnings (total_warnings s)).

(** Lines 229-233: the duration comparison, behind its guard. *)
Definition duration_comparison (baseline test_summary : VersionSummary)
  : io console_line unit :=
  if truthy (avg_duration baseline) && truthy (avg_duration test_summary) then
    t <-- lift (as_float (avg_duration test_summary)) ;;
    b <-- lift (as_float (avg_duration baseline)) ;;
    let duration_diff := Qred (t - b) in
    q <-- lift (true_div duration_diff b) ;;
    print (DurationChange duration_diff (Qred (q * 100)))
  else ret tt.

(** Lines 225-245: the block printed for one version other than the baseline. *)
Definition print_comparison (results : results_t) (baseline : VersionSummary)
  (version : string) : io console_line unit :=
  match lookup version results with
  | Some data =>
      let test_summary := summary data in
      print (Text (String "010" (version ++ ":"))) >>
      duration_comparison baseline test_summary >>
      print (ErrorChange (total_errors test_summary - total_errors baseline)) >>
      print (WarningChange
               (total_warnings test_summary - total_warnings baseline)) >>
      baseline_rate <-- lift (rate baseline) ;;
      test_rate <-- lift (rate test_summary) ;;
      print (SuccessRateChange (Qred (test_rate - baseline_rate)))
  | None => ret tt
  end.

(** Lines 195-245: everything [main] prints once [results] is saved. *)
Definition report (results : results_t) : io console_line unit :=
  print (Text (String "010" (Str.times "=" 60))) >>
  print (Text "FEDIMINT LOG ANALYSIS SUMMARY") >>
  print (Text (Str.times "=" 60)) >>
  for_each print_summary results >>
  match lookup "baseline" results with
  | Some data =>
      print (Text (String "010" "COMPARATIVE ANALYSIS (vs baseline)")) >>
      print (Text (Str.times "-" 40)) >>
      for_each (print_comparison results (summary data)) (tl versions)
  | None => ret tt
  end.

(** [main()] in a working directory with the entries [root]; writing
    [log_analysis_results.json] is taken to succeed. *)
Definition main (rt : runtime) (root : list (string * node))
  : io console_line unit :=
  results <-- analyze_versions rt root versions ;;
  report results.

(** ** [generate_report.py] *)

Definition version_names : list (string * string) :=
  [ ("baseline", "v0.7.2 (baseline)");
    ("v0.8.0-beta.2", "v0.8.0-beta.2 (self-hosted)");
    ("v0.8.0-beta.2-with-n0-infra", "v0.8.0-beta.2 (mixed)");
    ("v0.8.0-beta.2-n0-only-infra", "v0.8.0-beta.2 (n0-only)") ].

(** A line of the markdown report. The floats of a table row are kept as
    numbers, each to be laid out with [:.2f] or [:.1f]; the success mark of a
    run row is kept as the flag it is chosen by. *)
Inductive md_line : Type :=
| Md (s : string)
| SummaryRow (name : string) (avg median min_dur max_dur range_dur : Q)
    (success_rate : string)
| ChangeRow (name : string)
    (avg_change median_change min_change max_change : Q)
| ErrorRow (name : string) (errors warnings : Z)
    (error_diff warning_diff : string)
| RunRow (i : Z) (duration : Q) (success : bool) (errors warnings : Z)
    (issues : string).

(** [d[key]] *)
Definition item {V : Type} (key : string) (d : list (string * V)) : result V :=
  match lookup key d with
  | Some v => Ok v
  | None => Raise KeyError
  end.

(** [f"{n:+d}"] *)
Definition signed (n : Z) : string :=
  if n <? 0 then Str.of_Z n else "+" ++ Str.of_Z n.

(** Line 42 *)
Definition success_rate_text (s : VersionSummary) : string :=
  Str.of_Z (successful_runs s) ++ "/" ++ Str.of_Z (total_runs s) ++ " (100%)".

(** Lines 32-44: the row of one version in the statistics table. *)
Definition summary_row (results : results_t) (version : string)
  : io md_line unit :=
  match lookup version results with
  | Some data =>
      let s := summary data in
      name <-- lift (item version version_names) ;;
      let range_dur :=
        if truthy (max_duration s) && truthy (min_duration s) then
          match max_duration s, min_duration s with
          | Some hi, Some lo => Qred (hi - lo)
          | _, _ => 0%Q
          end
        else 0%Q in
      let success_rate := success_rate_text s in
      avg <-- lift (as_float (avg_duration s)) ;;
      median <-- lift (as_float (median_duration s)) ;;
      min_dur <-- lift (as_float (min_duration s)) ;;
      max_dur <-- lift (as_float (max_duration s)) ;;
      print (SummaryRow name avg median min_dur max_dur range_dur success_rate)
  | None => ret tt
  end.

(** [((x - base) / base) * 100] *)
Definition change (x base : option Q) : result Q :=
  a <- as_float x ;;
  b <- as_float base ;;
  q <- true_div (Qred (a - b)) b ;;
  Ok (Qred (q * 100)).

(** Lines 59-68: the row of one version in the comparison table. *)
Definition change_row (results : results_t) (baseline : VersionSummary)
  (version : string) : io md_line unit :=
  match lookup version results with
  | Some data =>
      let s := summary data in
      name <-- lift (item version version_names) ;;
      avg_change <-- lift (change (avg_duration s) (avg_duration baseline)) ;;
      median_change <--
        lift (change (median_duration s) (median_duration baseline)) ;;
      min_change <-- lift (change (min_duration s) (min_duration baseline)) ;;
      max_change <-- lift (change (max_duration s) (max_duration baseline)) ;;
      print (ChangeRow name avg_change median_change min_change max_change)
  | None => ret tt
  end.

(** Lines 80-94: the row of one version in the error table. *)
Definition error_row (results : results_t) (baseline_errors baseline_warnings : Z)
  (version : string) : io md_line unit :=
  match lookup version results with
  | Some data =>
      let s := summary data in
      name <-- lift (item version version_names) ;;
      let errors := total_errors s in
      let warnings := total_warnings s in
      let error_diff :=
        if String.eqb version "baseline" then "-"
        else signed (errors - baseline_errors) in
      let warning_diff :=
        if String.eqb version "baseline" then "-"
        else signed (warnings - baseline_warnings) in
      print (ErrorRow name errors warnings error_diff warning_diff)
  | None => ret tt
  end.

(** [issue_counts[issue] = issue_counts.get(issue, 0) + 1] on a dictionary
    that keeps its keys in the order they came in. *)
Fixpoint bump (issue : string) (issue_counts : list (string * Z))
  : list (string * Z) :=
  match issue_counts with
  | [] => [(issue, 1)]
  | (k, n) :: rest =>
      if String.eqb k issue then (k, n + 1) :: rest
      else (k, n) :: bump issue rest
  end.

Definition count_issues (issues : list string) : list (string * Z) :=
  fold_left (fun issue_counts issue => bump issue issue_counts) issues [].

(** Lines 121-124 *)
Definition format_issues (issue_counts : list (string * Z)) : string :=
  match issue_counts with
  | [] => "None"
  | _ :: _ =>
      String.concat ", "
        (map (fun ic => fst ic ++ " (" ++ Str.of_Z (snd ic) ++ ")") issue_counts)
  end.

(** Lines 109-126: the row of run number [i]; a run without CLI analysis has
    no fields to read. *)
Definition run_row (i : Z) (run : TestRunAnalysis) : io md_line unit :=
  cli <-- lift (match cli_analysis run with
                | Some cli => Ok cli
                | None => Raise TypeError
                end) ;;
  let issues := format_issues (count_issues (notable_issues cli)) in
  duration <-- lift (as_float (duration_seconds cli)) ;;
  print (RunRow i duration (success cli) (error_count cli) (warn_count cli)
           issues).

(** [for i, run in enumerate(runs, i)] *)
Fixpoint run_rows (i : Z) (runs : list TestRunAnalysis) : io md_line unit :=
  match runs with
  | [] => ret tt
  | run :: runs' => run_row i run >> run_rows (i + 1) runs'
  end.

(** Lines 101-128: the table of the runs of one version. *)
Definition run_table (results : results_t) (version : string)
  : io md_line unit :=
  match lookup version results with
  | Some data =>
      name <-- lift (item version version_names) ;;
      print (Md ("### " ++ name)) >>
      print (Md EmptyString) >>
      print (Md "| Run | Duration (s) | Success | CLI Errors | CLI Warnings | Notable Issues |") >>
      print (Md "|-----|--------------|---------|------------|--------------|----------------|") >>
      run_rows 1 (test_runs data) >>
      print (Md EmptyString)
  | None => ret tt
  end.

(** [generate_detailed_report()], [results] being what [json.load] gave. *)
Definition generate_detailed_report (results : results_t) : io md_line unit :=
  print (Md "# FEDIMINT v0.8.0-beta.2 REGRESSION ANALYSIS - DETAILED REPORT") >>
  print (Md EmptyString) >>
  print (Md "## Performance Statistics Summary") >>
  print (Md EmptyString) >>
  print (Md "| Version | Avg (s) | Median (s) | Min (s) | Max (s) | Range (s) | Success Rate |") >>
  print (Md "|---------|---------|------------|---------|---------|-----------|--------------|") >>
  for_each (summary_row results) versions >>
  print (Md EmptyString) >>
  print (Md "## Performance Comparison (vs Baseline)") >>
  print (Md EmptyString) >>
  print (Md "| Version | Avg Change | Median Change | Min Change | Max Change |") >>
  print (Md "|---------|------------|---------------|------------|------------|") >>
  baseline <-- lift (item "baseline" results) ;;
  for_each (change_row results (summary baseline)) (tl versions) >>
  print (Md EmptyString) >>
  print (Md "## Error and Warning Analysis") >>
  print (Md EmptyString) >>
  print (Md "| Version | CLI Errors | Total Warnings | Errors vs Baseline | Warnings vs Baseline |") >>
  print (Md "|---------|------------|----------------|--------------------|--------------------|") >>
  for_each (error_row results (total_errors (summary baseline))
              (total_warnings (summary baseline))) versions >>
  print (Md EmptyString) >>
  print (Md "## Individual Test Run Details") >>
  print (Md EmptyString) >>
  for_each (run_table results) versions.

(** * Vocabulary of the properties, and inputs for the examples *)

(** [needle] occurs in [hay]. *)
Definition substring_of (needle hay : string) : Prop :=
  exists a b, hay = a ++ needle ++ b.

(** A needle that is not empty and neither starts nor ends with white space. *)
Definition solid (needle : string) : bool :=
  match needle with
  | EmptyString => false
  | String c _ => negb (Str.is_space c)
  end
  && match Str.rstrip needle with
     | EmptyString => false
     | r => String.eqb r needle
     end.

(** An environment to run the examples in. *)
Definition rt_example : runtime := mkruntime (Datetime.mkdate 2025 6 1) true.

(** The timestamps the scan meets, one per line that yields one. *)
Definition stamp_of (rt : runtime) (raw : string) : list Datetime.datetime :=
  let line := Str.strip raw in
  if Str.is_empty line then []
  else match parse_timestamp rt line with
       | Some timestamp => [timestamp]
       | None => []
       end.

Definition stamps (rt : runtime) (lines : list string)
  : list Datetime.datetime :=
  flat_map (stamp_of rt) lines.

(** The last element of a list, if any. *)
Definition final {A : Type} (l : list A) : option A :=
  fold_left (fun _ x => Some x) l None.

Definition or_else {A : Type} (x y : option A) : option A :=
  match x with
  | Some _ => x
  | None => y
  end.

Definition joined_lines : list string :=
  [ "START"; "{" ++ joined_marker ++ ": true}"; "bye" ].

Definition stamped_lines : list string :=
  [ "boot";
    "2024-01-01T00:00:00.000Z START";
    "2024-01-01T00:00:05.000Z working";
    "2024-01-01T00:00:10.000Z done";
    "bye" ].

Definition mixed_lines : list string :=
  [ "2024-01-01T00:00:00.000Z START"; "2024-01-01 00:00:05.000 done" ].

(** What one pattern contributes: the parsed text of its match, nothing when
    it does not match and nothing when the matched text fails to parse. *)
Definition tier (rt : runtime) (p : Re.pattern) (line : string)
  : option Datetime.datetime :=
  match Re.search p line with
  | Some timestamp_str => convert rt timestamp_str
  | None => None
  end.

Definition bad_month_line : string := "2024-13-01T00:00:00.000Z".

(** An interpreter older than 3.11, whose [fromisoformat] wants three or six
    fraction digits, and a line with one. *)
Definition rt_legacy : runtime := mkruntime (Datetime.mkdate 2025 6 1) false.

Definition short_fraction_line : string := "2024-01-01T00:00:07.5Z".

(** A log whose only timestamp gives a run of duration 0. *)
Definition instant_log : node :=
  File (Lines [ "2024-01-01T00:00:00.000Z {" ++ joined_marker ++ ": true}" ]).

Definition five_second_log : node :=
  File (Lines [ "2024-01-01T00:00:00.000Z START";
                "2024-01-01T00:00:05.000Z {" ++ joined_marker ++ ": true}" ]).

Definition zero_baseline_root : list (string * node) :=
  [ ("baseline", Dir [ ("test-run1", Dir [ ("fedimint-cli.log", instant_log) ]) ]);
    ("v0.8.0-beta.2",
     Dir [ ("test-run1", Dir [ ("fedimint-cli.log", five_second_log) ]) ]) ].

(** The averages of the versions found under [root]. *)
Definition averages (rt : runtime) (root : list (string * node))
  : result (list (string * option Q)) :=
  results <- outcome (analyze_versions rt root versions) ;;
  Ok (map (fun vd => (fst vd, avg_duration (summary (snd vd)))) results).

(** A baseline with three successful runs out of five. *)
Definition three_of_five : results_t :=
  [ ("baseline",
     mkVersionDirectoryAnalysis "baseline" []
       (mkVersionSummary 5 3 (Some 4%Q) (Some 4%Q) (Some 2%Q) (Some 6%Q) 0 0)) ].

(** A run whose CLI log lasted [d] seconds and joined. *)
Definition run_lasting (d : Q) : TestRunAnalysis :=
  mkTestRunAnalysis "run"
    (Some (mkLogAnalysis "run/fedimint-cli.log" 0 0 None None (Some d) true []))
    None.

Definition runs_4_6 : tally :=
  record_run (record_run tally0 (run_lasting 4)) (run_lasting 6).

(** The four statistics are set together. *)
Definition stats_together (s : VersionSummary) : Prop :=
  avg_duration s = None
  \/ exists a m lo hi,
       avg_duration s = Some a /\ median_duration s = Some m
       /\ min_duration s = Some lo /\ max_duration s = Some hi.

(** A baseline directory without any run directory. *)
Definition empty_baseline_root : list (string * node) :=
  [ ("baseline", Dir [ ("notes.txt", File (Lines [ "nothing ran" ])) ]) ].

Definition empty_baseline : VersionDirectoryAnalysis :=
  mkVersionDirectoryAnalysis "baseline" []
    (mkVersionSummary 0 0 None None None None 0 0).

Fixpoint all_chars (P : ascii -> bool) (s : string) : bool :=
  match s with
  | EmptyString => true
  | String c s' => P c && all_chars P s'
  end.

(** [c] is a literal of the pattern [p]. *)
Definition lit_in (p : Re.pattern) (c : ascii) : bool :=
  existsb (fun a => match a with
                    | Re.Lit x => Ascii.eqb c x
                    | _ => false
                    end) p.

(** A character a match of [p] can hold: a digit or a literal of [p]. *)
Definition char_of (p : Re.pattern) (c : ascii) : bool :=
  Str.is_digit c || lit_in p c.

(** The success-rate column of a statistics row is that of some version. *)
Definition row_shows_literal (results : results_t) (l : md_line) : Prop :=
  match l with
  | SummaryRow _ _ _ _ _ _ success_rate =>
      exists version data,
        In version versions /\ lookup version results = Some data
        /\ success_rate
           = Str.of_Z (successful_runs (summary data)) ++ "/"
             ++ Str.of_Z (total_runs (summary data)) ++ " (100%)"
  | _ => True
  end.

(** ** Vocabulary of the further properties *)

(** The line is not made of white space only. *)
Definition nonblank (raw : string) : bool := negb (Str.is_empty (Str.strip raw)).

(** Both timestamps carry a zone, or neither does. *)
Definition same_awareness (a b : Datetime.datetime) : bool :=
  match Datetime.tzinfo a, Datetime.tzinfo b with
  | None, None => true
  | Some _, Some _ => true
  | _, _ => false
  end.

Definition count_label (label : string) (issues : list string) : nat :=
  count_occ string_dec issues label.

Definition noisy_lines : list string :=
  [ "WARNING: slow peer"; "ERROR after WARN"; "all good" ].

Definition disco_lines : list string :=
  [ "Failed to open DISCO box"; "disco box closed" ].

(** The clock fields are those of a time of day. *)
Definition valid_time (t : Datetime.time) : bool :=
  Datetime.check_time_fields (Datetime.hour t) (Datetime.minute t)
    (Datetime.second t) (Datetime.microsecond t).

(** The calendar fields are those of a day that exists. *)
Definition valid_date (d : Datetime.date) : bool :=
  Datetime.check_date_fields (Datetime.year d) (Datetime.month d)
    (Datetime.day d).

Definition leap_day_line : string := "INFO 2023-02-29 10:00:00.5 late".

(** The first entry of a run directory that is taken for the CLI log, and
    the first that is taken for the peer log. *)
Definition first_log (infix : string) (entries : list (string * node))
  : option (string * node) :=
  find (fun e => glob_log infix (fst e)) entries.

(** What one entry contributes as analysis: nothing when there is none. *)
Definition analysis_of (rt : runtime) (dir : string)
  (e : option (string * node)) : result (option LogAnalysis) :=
  match e with
  | None => Ok None
  | Some (name, n) =>
      a <- analyze_log_file rt (join dir name) (read_node (join dir name) n) ;;
      Ok (Some a)
  end.

Definition two_cli_logs : list (string * node) :=
  [ ("notes.log", File (Lines [ "ERROR not a cli log" ]));
    ("a-fedimint-cli-1.log", File (Lines [ "ERROR one" ]));
    ("b-fedimint-cli-2.log", File (Lines [ "ERROR two"; "ERROR three" ]));
    ("fedimint-cli.log.gz", File (Lines [ "ERROR packed" ])) ].

(** The run has a CLI analysis, and it joined. *)
Definition cli_success (r : TestRunAnalysis) : bool :=
  match cli_analysis r with
  | Some a => success a
  | None => false
  end.

(** A count of an analysis that may be missing. *)
Definition count_of (f : LogAnalysis -> Z) (o : option LogAnalysis) : Z :=
  match o with
  | Some a => f a
  | None => 0
  end.

Definition run_errors (r : TestRunAnalysis) : Z :=
  count_of error_count (cli_analysis r) + count_of error_count (peer_analysis r).

Definition run_warnings (r : TestRunAnalysis) : Z :=
  count_of warn_count (cli_analysis r) + count_of warn_count (peer_analysis r).

(** The duration a run contributes: that of its CLI log, when it has one. *)
Definition run_duration (r : TestRunAnalysis) : list Q :=
  match cli_analysis r with
  | Some a =>
      match duration_seconds a with
      | Some d => [d]
      | None => []
      end
  | None => []
  end.

Definition Zsum (l : list Z) : Z := fold_right Z.add 0 l.

(** The tally after the runs [runs]. *)
Definition tally_of (runs : list TestRunAnalysis) : tally :=
  mktally runs (Z.of_nat (List.length runs))
    (Z.of_nat (List.length (filter cli_success runs)))
    (Zsum (map run_errors runs)) (Zsum (map run_warnings runs))
    (flat_map run_duration runs).

(** The run analysis [r] is that of the directory entry [e] of [dir]. *)
Definition run_of (rt : runtime) (dir : string) (e : string * node)
  (r : TestRunAnalysis) : Prop :=
  exists entries,
    snd e = Dir entries
    /\ analyze_test_run rt (join dir (fst e)) entries = Ok r.

Definition is_dir (e : string * node) : bool :=
  match snd e with
  | Dir _ => true
  | File _ => false
  end.

(** A version directory with three runs, a file and a directory of another
    name. *)
Definition mixed_entries : list (string * node) :=
  [ ("test-run2", Dir [ ("fedimint-cli.log", five_second_log) ]);
    ("test-run-notes.txt", File (Lines [ "ERROR not a run" ]));
    ("test-run10", Dir [ ("fedimint-cli.log", instant_log);
                          ("fedimintd-peer0.log",
                           File (Lines [ "ERROR peer"; "WARN peer" ])) ]);
    ("archive", Dir [ ("fedimint-cli.log", five_second_log) ]);
    ("test-run1", Dir []) ].

Definition mixed_version_dir : node := Dir mixed_entries.




(** Every version analysed has at least one run. *)
Definition all_have_runs (results : results_t) : bool :=
  forallb (fun vd => negb (total_runs (summary (snd vd)) =? 0)) results.

(** The line belongs to the comparison with the baseline. *)
Definition comparative (l : console_line) : bool :=
  match l with
  | DurationChange _ _ | ErrorChange _ | WarningChange _
  | SuccessRateChange _ => true
  | _ => false
  end.

(** The lines [print_summary] shows for the durations. *)
Definition duration_lines (s : VersionSummary) : list console_line :=
  match avg_duration s, median_duration s, min_duration s, max_duration s with
  | Some a, Some m, Some lo, Some hi =>
      if Qeq_bool a 0 then [Text "Join duration: N/A"]
      else [Text "Join duration statistics:";
            Average a; Median m; Minimum lo; Maximum hi]
  | _, _, _, _ => [Text "Join duration: N/A"]
  end.

Definition no_baseline_root : list (string * node) :=
  [ ("v0.8.0-beta.2",
     Dir [ ("test-run1", Dir [ ("fedimint-cli.log", five_second_log) ]) ]) ].

Definition two_versions_root : list (string * node) :=
  [ ("v0.8.0-beta.2",
     Dir [ ("test-run1", Dir [ ("fedimint-cli.log", five_second_log) ]) ]);
    ("unrelated", Dir []);
    ("baseline",
     Dir [ ("test-run1",
            Dir [ ("fedimint-cli.log",
                   File (Lines [ "2024-01-01T00:00:00.000Z ERROR late";
                                 "2024-01-01T00:00:04.000Z WARN slow" ])) ]) ]) ].

Definition busy_summary : VersionSummary :=
  mkVersionSummary 2 1 (Some 0%Q) (Some 0%Q) (Some 0%Q) (Some 0%Q) 3 4.

(** The run has what its row of the report needs: a CLI analysis with a
    duration. *)
Definition row_ready (run : TestRunAnalysis) : bool :=
  match cli_analysis run with
  | Some a =>
      match duration_seconds a with
      | Some _ => true
      | None => false
      end
  | None => false
  end.

Definition row_number (l : md_line) : option Z :=
  match l with
  | RunRow i _ _ _ _ _ => Some i
  | _ => None
  end.

(** The four statistics are set. *)
Definition all_stats (s : VersionSummary) : Prop :=
  avg_duration s <> None /\ median_duration s <> None
  /\ min_duration s <> None /\ max_duration s <> None.

(** Set, and not zero. *)
Definition nonzero (x : option Q) : Prop :=
  match x with
  | Some q => Qeq_bool q 0 = false
  | None => False
  end.

Definition some_issues : list string :=
  [ "Disco box error"; "DNS resolution failure"; "Disco box error";
    "Disco box error" ].

(** Results in which the baseline has its statistics and one run, and the
    other version too. *)
Definition complete_results : results_t :=
  [ ("baseline",
     mkVersionDirectoryAnalysis "baseline" [ run_lasting 4 ]
       (mkVersionSummary 1 1 (Some 4%Q) (Some 4%Q) (Some 4%Q) (Some 4%Q) 0 0));
    ("v0.8.0-beta.2",
     mkVersionDirectoryAnalysis "v0.8.0-beta.2" [ run_lasting 6 ]
       (mkVersionSummary 1 1 (Some 6%Q) (Some 6%Q) (Some 6%Q) (Some 6%Q) 0 0)) ].

Definition results_without_baseline : results_t :=
  [ ("v0.8.0-beta.2",
     mkVersionDirectoryAnalysis "v0.8.0-beta.2" [ run_lasting 6 ]
       (mkVersionSummary 1 1 (Some 6%Q) (Some 6%Q) (Some 6%Q) (Some 6%Q) 0 0)) ].

(** * Properties *)

(** ** Substrings *)

Section Substrings.

Lemma starts_with_iff (n h : string) :
  Str.starts_with n h = true <-> exists b, h = n ++ b.
Proof.
  revert h; induction n as [|a n IH]; intros h; simpl.
  - split; [intros _; now exists h | reflexivity].
  - destruct h as [|c h].
    + split; [discriminate | intros [b Hb]; discriminate].
    + rewrite andb_true_iff, Ascii.eqb_eq, IH. split.
      * intros [-> [b ->]]. now exists b.
      * intros [b Hb]. inversion Hb. split; [reflexivity | now exists b].
Qed.

Lemma contains_unfold (n h : string) :
  Str.contains n h =
    Str.starts_with n h
    || match h with
       | EmptyString => false
       | String _ h' => Str.contains n h'
       end.
Proof. destruct h; reflexivity. Qed.

Lemma contains_iff (n h : string) :
  Str.contains n h = true <-> substring_of n h.
Proof.
  unfold substring_of. induction h as [|c h IH].
  - rewrite contains_unfold, orb_false_r, starts_with_iff. split.
    + intros [b Hb]. now exists EmptyString, b.
    + intros [a [b Hb]]. destruct a; [now exists b | discriminate].
  - rewrite contains_unfold, orb_true_iff, starts_with_iff, IH. split.
    + intros [[b Hb] | [a [b Hb]]].
      * now exists EmptyString, b.
      * exists (String c a), b. simpl. now rewrite Hb.
    + intros [a [b Hb]]. destruct a as [|c' a].
      * left. now exists b.
      * right. inversion Hb. now exists a, b.
Qed.

Lemma substring_of_inside (n w1 s w2 : string) :
  substring_of n s -> substring_of n (w1 ++ s ++ w2).
Proof.
  intros [a [b ->]]. exists (w1 ++ a), (b ++ w2).
  induction w1 as [|c w1 IH]; simpl.
  - induction a as [|c a IHa]; simpl.
    + induction n as [|c n IHn]; simpl; [reflexivity | now rewrite IHn].
    + now rewrite IHa.
  - now rewrite IH.
Qed.

Lemma lstrip_tail (s : string) : exists w, s = w ++ Str.lstrip s.
Proof.
  induction s as [|c s [w Hw]]; simpl.
  - now exists EmptyString.
  - destruct (Str.is_space c).
    + exists (String c w). simpl. now rewrite <- Hw.
    + now exists EmptyString.
Qed.

Lemma rstrip_head (s : string) : exists w, s = Str.rstrip s ++ w.
Proof.
  induction s as [|c s [w Hw]]; simpl.
  - now exists EmptyString.
  - destruct (Str.rstrip s) as [|c' r] eqn:E.
    + destruct (Str.is_space c).
      * now exists (String c s).
      * exists w. simpl. simpl in Hw. now rewrite <- Hw.
    + exists w. simpl. simpl in Hw. now rewrite <- Hw.
Qed.

Lemma strip_inside (s : string) : exists w1 w2, s = w1 ++ Str.strip s ++ w2.
Proof.
  unfold Str.strip.
  destruct (lstrip_tail s) as [w1 H1].
  destruct (rstrip_head (Str.lstrip s)) as [w2 H2].
  exists w1, w2. now rewrite <- H2.
Qed.

(** Whatever occurs in the stripped line occurs in the line. *)
Lemma contains_of_strip (n s : string) :
  Str.contains n (Str.strip s) = true -> Str.contains n s = true.
Proof.
  rewrite !contains_iff. intros H.
  destruct (strip_inside s) as [w1 [w2 E]]. rewrite E.
  now apply substring_of_inside.
Qed.

Lemma contains_lstrip (n s : string) :
  solid n = true -> Str.contains n s = true ->
  Str.contains n (Str.lstrip s) = true.
Proof.
  intros Hn. induction s as [|c s IH]; [easy|].
  simpl Str.lstrip. destruct (Str.is_space c) eqn:Hc; [|easy].
  rewrite contains_unfold.
  destruct n as [|a n]; [discriminate|].
  simpl Str.starts_with. destruct (Ascii.eqb a c) eqn:Hac.
  - apply Ascii.eqb_eq in Hac. subst a.
    unfold solid in Hn. rewrite Hc in Hn. discriminate.
  - simpl. exact IH.
Qed.

Lemma rstrip_solid_cons (a : ascii) (n : string) :
  Str.rstrip (String a n) = String a n ->
  n = EmptyString /\ Str.is_space a = false
  \/ n <> EmptyString /\ Str.rstrip n = n.
Proof.
  simpl. destruct (Str.rstrip n) as [|c r] eqn:E.
  - destruct (Str.is_space a); [discriminate|].
    intros H. inversion H. now left.
  - intros H. injection H as H1. right.
    split; [rewrite <- H1; discriminate | exact H1].
Qed.

Lemma starts_with_rstrip (n s : string) :
  n <> EmptyString -> Str.rstrip n = n ->
  Str.starts_with n s = true -> Str.starts_with n (Str.rstrip s) = true.
Proof.
  revert s. induction n as [|a n IH]; intros s Hne Hn Hp; [easy|].
  destruct s as [|c s]; [discriminate|].
  simpl in Hp. apply andb_true_iff in Hp. destruct Hp as [Hac Hp].
  apply Ascii.eqb_eq in Hac. subst c.
  destruct (rstrip_solid_cons _ _ Hn) as [[-> Ha] | [Hne' Hn']].
  - simpl. rewrite Ha.
    destruct (Str.rstrip s); simpl; now rewrite Ascii.eqb_refl.
  - specialize (IH s Hne' Hn' Hp).
    simpl. destruct (Str.rstrip s) as [|c' r] eqn:E.
    + destruct n; [easy | discriminate].
    + simpl. rewrite Ascii.eqb_refl. exact IH.
Qed.

Lemma solid_rstrip (n : string) :
  solid n = true -> n <> EmptyString /\ Str.rstrip n = n.
Proof.
  unfold solid. destruct n as [|a n]; [discriminate|].
  rewrite andb_true_iff. intros [_ H]. split; [discriminate|].
  destruct (Str.rstrip (String a n)); [discriminate|].
  now apply String.eqb_eq.
Qed.

Lemma contains_rstrip (n s : string) :
  solid n = true -> Str.contains n s = true ->
  Str.contains n (Str.rstrip s) = true.
Proof.
  intros Hn. destruct (solid_rstrip _ Hn) as [Hne Hr].
  induction s as [|c s IH]; [easy|].
  rewrite contains_unfold, orb_true_iff. intros [Hp | Hc].
  - rewrite contains_unfold. apply orb_true_iff. left.
    now apply starts_with_rstrip.
  - specialize (IH Hc). simpl.
    destruct (Str.rstrip s) as [|c' r] eqn:E.
    + destruct n; [easy|]. simpl in IH. discriminate.
    + rewrite contains_unfold. apply orb_true_iff. now right.
Qed.

(** Stripping a line keeps every occurrence of a solid needle. *)
Lemma contains_strip (n s : string) :
  solid n = true ->
  Str.contains n (Str.strip s) = Str.contains n s.
Proof.
  intros Hn. destruct (Str.contains n s) eqn:E.
  - unfold Str.strip. now apply contains_rstrip, contains_lstrip.
  - destruct (Str.contains n (Str.strip s)) eqn:E'; [|reflexivity].
    apply contains_of_strip in E'. congruence.
Qed.

Lemma contains_nonempty (n s : string) :
  n <> EmptyString -> Str.contains n s = true -> Str.is_empty s = false.
Proof.
  intros Hne H. destruct s; [|reflexivity].
  destruct n; [contradiction | discriminate].
Qed.

End Substrings.

(** ** Scanning a log file *)

Section Scan.

Variable rt : runtime.

Lemma solid_ERROR : solid "ERROR" = true.
Proof. reflexivity. Qed.

Lemma solid_joined : solid joined_marker = true.
Proof. reflexivity. Qed.

Lemma strip_empty_contains (n raw : string) :
  solid n = true -> Str.is_empty (Str.strip raw) = true ->
  Str.contains n raw = false.
Proof.
  intros Hn He. rewrite <- (contains_strip n raw Hn).
  destruct (Str.strip raw); [|discriminate].
  destruct n; [discriminate | reflexivity].
Qed.

Lemma scan_line_errors (st : scan) (raw : string) :
  sc_error_count (scan_line rt st raw)
  = sc_error_count st + (if Str.contains "ERROR" raw then 1 else 0).
Proof.
  unfold scan_line. destruct (Str.is_empty (Str.strip raw)) eqn:He.
  - rewrite (strip_empty_contains _ _ solid_ERROR He). lia.
  - rewrite (contains_strip _ raw solid_ERROR).
    destruct (parse_timestamp rt (Str.strip raw)); simpl;
      destruct (Str.contains "ERROR" raw); lia.
Qed.

Lemma scan_line_success (st : scan) (raw : string) :
  sc_success (scan_line rt st raw)
  = sc_success st || Str.contains joined_marker raw.
Proof.
  unfold scan_line. destruct (Str.is_empty (Str.strip raw)) eqn:He.
  - rewrite (strip_empty_contains _ _ solid_joined He).
    now rewrite orb_false_r.
  - rewrite (contains_strip _ raw solid_joined).
    destruct (parse_timestamp rt (Str.strip raw)); simpl;
      destruct (Str.contains joined_marker raw), (sc_success st); reflexivity.
Qed.

Lemma scan_line_first (st : scan) (raw : string) :
  sc_first_timestamp (scan_line rt st raw)
  = or_else (sc_first_timestamp st) (hd_error (stamp_of rt raw)).
Proof.
  unfold scan_line, stamp_of.
  destruct (Str.is_empty (Str.strip raw)).
  - now destruct (sc_first_timestamp st).
  - destruct (parse_timestamp rt (Str.strip raw)); simpl;
      now destruct (sc_first_timestamp st).
Qed.

Lemma scan_line_last (st : scan) (raw : string) :
  sc_last_timestamp (scan_line rt st raw)
  = or_else (final (stamp_of rt raw)) (sc_last_timestamp st).
Proof.
  unfold scan_line, stamp_of.
  destruct (Str.is_empty (Str.strip raw)); [reflexivity|].
  now destruct (parse_timestamp rt (Str.strip raw)).
Qed.

Lemma final_app {A : Type} (l1 l2 : list A) :
  final (l1 ++ l2) = or_else (final l2) (final l1).
Proof.
  unfold final. rewrite fold_left_app.
  generalize (fold_left (fun (_ : option A) (x : A) => Some x) l1 None).
  induction l2 as [|x l2 IH] using rev_ind; intros o; [reflexivity|].
  now rewrite !fold_left_app.
Qed.

Lemma hd_error_app {A : Type} (l1 l2 : list A) :
  hd_error (l1 ++ l2) = or_else (hd_error l1) (hd_error l2).
Proof. now destruct l1. Qed.

Lemma fold_scan_success (lines : list string) (st : scan) :
  sc_success (fold_left (scan_line rt) lines st)
  = sc_success st || existsb (Str.contains joined_marker) lines.
Proof.
  revert st. induction lines as [|raw lines IH]; intros st; simpl.
  - now rewrite orb_false_r.
  - now rewrite IH, scan_line_success, orb_assoc.
Qed.

Lemma fold_scan_first (lines : list string) (st : scan) :
  sc_first_timestamp (fold_left (scan_line rt) lines st)
  = or_else (sc_first_timestamp st) (hd_error (stamps rt lines)).
Proof.
  revert st. induction lines as [|raw lines IH]; intros st; simpl.
  - now destruct (sc_first_timestamp st).
  - rewrite IH, scan_line_first, hd_error_app.
    now destruct (sc_first_timestamp st), (hd_error (stamp_of rt raw)).
Qed.

Lemma fold_scan_last (lines : list string) (st : scan) :
  sc_last_timestamp (fold_left (scan_line rt) lines st)
  = or_else (final (stamps rt lines)) (sc_last_timestamp st).
Proof.
  revert st. induction lines as [|raw lines IH]; intros st; simpl.
  - reflexivity.
  - rewrite IH, scan_line_last. unfold stamps. simpl. rewrite final_app.
    now destruct (final (flat_map (stamp_of rt) lines)),
                 (final (stamp_of rt raw)).
Qed.

Lemma fold_scan_errors (lines : list string) (st : scan) :
  sc_error_count (fold_left (scan_line rt) lines st)
  = sc_error_count st
    + Z.of_nat (List.length (filter (Str.contains "ERROR") lines)).
Proof.
  revert st. induction lines as [|raw lines IH]; intros st; simpl.
  - lia.
  - rewrite IH, scan_line_errors.
    destruct (Str.contains "ERROR" raw); simpl List.length; lia.
Qed.

Lemma final_none_iff {A : Type} (l : list A) : final l = None <-> l = [].
Proof.
  split; [|now intros ->].
  destruct l as [|x l] using rev_ind; [reflexivity|].
  rewrite final_app. simpl. discriminate.
Qed.

Lemma hd_error_none_iff {A : Type} (l : list A) : hd_error l = None <-> l = [].
Proof. destruct l; simpl; split; congruence. Qed.

(** What [finish] hands back when it hands back something. *)
Lemma finish_fields (path : string) (st : scan) (r : LogAnalysis) :
  finish path st = Ok r ->
  file r = path
  /\ error_count r = sc_error_count st
  /\ warn_count r = sc_warn_count st
  /\ first_timestamp r = option_map Datetime.isoformat (sc_first_timestamp st)
  /\ last_timestamp r = option_map Datetime.isoformat (sc_last_timestamp st)
  /\ success r = sc_success st
  /\ notable_issues r = sc_notable_issues st.
Proof.
  unfold finish.
  destruct (sc_first_timestamp st) as [t1|], (sc_last_timestamp st) as [t2|];
    simpl; try (intros H; injection H as <-; simpl; tauto).
  destruct (Datetime.sub t2 t1); simpl; [|discriminate].
  intros H; injection H as <-; simpl; tauto.
Qed.

(** The duration of a returned analysis: the distance between the first and
    the last timestamp met, when there is a first and a last. *)
Lemma finish_duration (path : string) (st : scan) (r : LogAnalysis) :
  finish path st = Ok r ->
  duration_seconds r =
    match sc_first_timestamp st, sc_last_timestamp st with
    | Some t1, Some t2 =>
        Some (Datetime.total_seconds (Datetime.micros t2 - Datetime.micros t1))
    | _, _ => None
    end.
Proof.
  unfold finish.
  destruct (sc_first_timestamp st) as [t1|], (sc_last_timestamp st) as [t2|];
    simpl; try (intros H; injection H as <-; reflexivity).
  unfold Datetime.sub.
  destruct (Datetime.tzinfo t2) as [[]|], (Datetime.tzinfo t1) as [[]|];
    simpl; try discriminate; intros H; injection H as <-; reflexivity.
Qed.

End Scan.

Section LogFile.

Variable rt : runtime.

Lemma scan_lines_first (lines : list string) :
  sc_first_timestamp (scan_lines rt lines) = hd_error (stamps rt lines).
Proof. unfold scan_lines. now rewrite fold_scan_first. Qed.

Lemma scan_lines_last (lines : list string) :
  sc_last_timestamp (scan_lines rt lines) = final (stamps rt lines).
Proof.
  unfold scan_lines. rewrite fold_scan_last.
  now destruct (final (stamps rt lines)).
Qed.

(** The number of lines with [ERROR] in them is the error count of the file. *)
Lemma error_count_of_file (path : string) (lines : list string)
  (r : LogAnalysis) :
  analyze_log_file rt path (Lines lines) = Ok r ->
  error_count r
  = Z.of_nat (List.length (filter (Str.contains "ERROR") lines)).
Proof.
  intros H. apply finish_fields in H.
  destruct H as (_ & -> & _). unfold scan_lines.
  now rewrite fold_scan_errors.
Qed.

(** X25: when an analysis is returned, its duration is there exactly when
    both timestamps are, and is the distance from the first to the last. *)
Lemma duration_when_returned (path : string) (lines : list string)
  (r : LogAnalysis) :
  analyze_log_file rt path (Lines lines) = Ok r ->
  duration_seconds r =
    match hd_error (stamps rt lines), final (stamps rt lines) with
    | Some t1, Some t2 =>
        Some (Datetime.total_seconds (Datetime.micros t2 - Datetime.micros t1))
    | _, _ => None
    end
  /\ (duration_seconds r <> None
      <-> first_timestamp r <> None /\ last_timestamp r <> None).
Proof.
  intros H. simpl in H.
  pose proof (finish_duration _ _ _ H) as Hd.
  apply finish_fields in H. destruct H as (_ & _ & _ & Hf & Hl & _).
  rewrite scan_lines_first in Hd, Hf. rewrite scan_lines_last in Hd, Hl.
  split; [exact Hd|]. rewrite Hd, Hf, Hl.
  destruct (hd_error (stamps rt lines)), (final (stamps rt lines)); simpl;
    intuition congruence.
Qed.

End LogFile.

(** C7: when opening or reading the file fails, [analyze_log_file] returns
    (it does not raise) an analysis whose only content is the notable issue
    that records the failure: the counts are 0, both timestamps and the
    duration are unset and the success flag is false. A run directory whose
    CLI log cannot be read is analysed all the same, its peer log included. *)
Theorem read_failure_is_recorded (rt : runtime) (path e : string) :
  analyze_log_file rt path (ReadError e)
  = Ok {| file := path; error_count := 0; warn_count := 0;
          first_timestamp := None; last_timestamp := None;
          duration_seconds := None; success := false;
          notable_issues := ["Failed to read file: " ++ e] |}
  /\ forall dir peer_lines,
       analyze_test_run rt dir
         [ ("fedimint-cli.log", File (ReadError e));
           ("fedimintd-peer0.log", File (Lines peer_lines)) ]
       = peer <- analyze_log_file rt (join dir "fedimintd-peer0.log")
                   (Lines peer_lines) ;;
         Ok (mkTestRunAnalysis dir
               (Some (mkLogAnalysis (join dir "fedimint-cli.log") 0 0
                        None None None false ["Failed to read file: " ++ e]))
               (Some peer)).
Proof.
  split; [reflexivity|].
  intros dir peer_lines. unfold analyze_test_run. simpl.
  now destruct (finish (join dir "fedimintd-peer0.log")
                  (scan_lines rt peer_lines)).
Qed.

(** C8: a line in which the text ERROR occurs, however many times, raises
    [error_count] by exactly one. *)
Theorem error_count_once_per_line (rt : runtime) (st : scan) (raw : string) :
  substring_of "ERROR" raw ->
  sc_error_count (scan_line rt st raw) = sc_error_count st + 1.
Proof.
  intros H. apply contains_iff in H.
  now rewrite scan_line_errors, H.
Qed.

Lemma error_count_once_per_line_witness :
  substring_of "ERROR" "ERROR: retry after ERROR"
  /\ sc_error_count (scan_line rt_example scan0 "ERROR: retry after ERROR") = 1.
Proof.
  assert (H : substring_of "ERROR" "ERROR: retry after ERROR")
    by (exists EmptyString, ": retry after ERROR"; reflexivity).
  split; [exact H|].
  exact (error_count_once_per_line rt_example scan0 _ H).
Defined.

(** C9: a line sets [success] exactly when the text "joined", double quotes
    included and in this casing, occurs in it, and no line resets it; so the
    returned analysis has [success = true] exactly when some line of the file
    contains that text, and [false] when none does. *)
Theorem success_iff_joined (rt : runtime) :
  (forall st raw,
      sc_success (scan_line rt st raw)
      = sc_success st || Str.contains joined_marker raw)
  /\ (forall path lines r,
         analyze_log_file rt path (Lines lines) = Ok r ->
         (success r = true
          <-> exists line, In line lines /\ substring_of joined_marker line)).
Proof.
  split; [apply scan_line_success|].
  intros path lines r H. apply finish_fields in H.
  destruct H as (_ & _ & _ & _ & _ & -> & _).
  unfold scan_lines. rewrite fold_scan_success. simpl.
  rewrite existsb_exists. split.
  - intros [line [Hin Hc]]. exists line. split; [exact Hin|].
    now apply contains_iff.
  - intros [line [Hin Hc]]. exists line. split; [exact Hin|].
    now apply contains_iff.
Qed.

Lemma success_iff_joined_witness :
  analyze_log_file rt_example "cli.log" (Lines joined_lines)
  = Ok {| file := "cli.log"; error_count := 0; warn_count := 0;
          first_timestamp := None; last_timestamp := None;
          duration_seconds := None; success := true;
          notable_issues := [] |}
  /\ exists line, In line joined_lines /\ substring_of joined_marker line.
Proof.
  assert (H : analyze_log_file rt_example "cli.log" (Lines joined_lines)
              = Ok (mkLogAnalysis "cli.log" 0 0 None None None true []))
    by reflexivity.
  split; [exact H|].
  exact (proj1 (proj2 (success_iff_joined rt_example) _ _ _ H) eq_refl).
Defined.

(** C10: in a returned analysis [first_timestamp] is the first timestamp any
    line yielded and [last_timestamp] the last one, so the one is present
    exactly when the other is, and both are unset when no line parses. *)
Theorem timestamps_both_or_neither (rt : runtime) (path : string)
  (lines : list string) (r : LogAnalysis) :
  analyze_log_file rt path (Lines lines) = Ok r ->
  first_timestamp r = option_map Datetime.isoformat (hd_error (stamps rt lines))
  /\ last_timestamp r = option_map Datetime.isoformat (final (stamps rt lines))
  /\ (first_timestamp r = None <-> last_timestamp r = None).
Proof.
  intros H. apply finish_fields in H.
  destruct H as (_ & _ & _ & Hf & Hl & _).
  rewrite scan_lines_first in Hf. rewrite scan_lines_last in Hl.
  split; [exact Hf|]. split; [exact Hl|].
  rewrite Hf, Hl.
  destruct (hd_error (stamps rt lines)) eqn:E1,
           (final (stamps rt lines)) eqn:E2; simpl; split; try congruence.
  - apply final_none_iff in E2. rewrite E2 in E1. discriminate.
  - apply hd_error_none_iff in E1. rewrite E1 in E2. discriminate.
Qed.

Lemma timestamps_both_or_neither_witness :
  exists r,
    analyze_log_file rt_example "cli.log" (Lines stamped_lines) = Ok r
    /\ first_timestamp r = Some "2024-01-01T00:00:00+00:00"
    /\ last_timestamp r = Some "2024-01-01T00:00:10+00:00"
    /\ (first_timestamp r = None <-> last_timestamp r = None).
Proof.
  eexists. split; [reflexivity|].
  exact (timestamps_both_or_neither rt_example "cli.log" stamped_lines _ eq_refl).
Defined.

(** C3: the claim asks for a duration whenever both timestamps are present.
    On a file whose first timestamp carries the zone marker and whose last
    one does not, both are present and the subtraction raises [TypeError]:
    no analysis is returned at all. *)
Theorem duration_mixed_zones_raises (rt : runtime) :
  hd_error (stamps rt mixed_lines)
  = Some (Datetime.mkdatetime (Datetime.mkdate 2024 1 1)
            (Datetime.mktime 0 0 0 0) (Some Datetime.utc))
  /\ final (stamps rt mixed_lines)
     = Some (Datetime.mkdatetime (Datetime.mkdate 2024 1 1)
               (Datetime.mktime 0 0 5 0) None)
  /\ analyze_log_file rt "cli.log" (Lines mixed_lines) = Raise TypeError.
Proof.
  destruct rt as [day [|]]; repeat split; reflexivity.
Qed.

(** ** The timestamp extractor *)

Lemma loop_cons (rt : runtime) (p : Re.pattern) (ps : list Re.pattern)
  (line : string) :
  parse_timestamp_loop rt (p :: ps) line
  = or_else (tier rt p line) (parse_timestamp_loop rt ps line).
Proof.
  unfold tier. simpl.
  destruct (Re.search p line) as [m|]; [|reflexivity].
  now destruct (convert rt m).
Qed.

(** The loop returns the contribution of the first pattern that has one. *)
Lemma loop_first_tier (rt : runtime) (ps : list Re.pattern) (line : string)
  (t : Datetime.datetime) :
  parse_timestamp_loop rt ps line = Some t
  <-> exists pre p post,
        ps = (pre ++ p :: post)%list
        /\ Forall (fun q => tier rt q line = None) pre
        /\ tier rt p line = Some t.
Proof.
  induction ps as [|p ps IH].
  - split; [discriminate|]. intros (pre & q & post & E & _).
    destruct pre; discriminate.
  - rewrite loop_cons. destruct (tier rt p line) as [t'|] eqn:Ht; simpl.
    + split.
      * intros H. exists [], p, ps. repeat split; [constructor | congruence].
      * intros (pre & q & post & E & Hpre & Hq).
        destruct pre as [|p' pre]; simpl in E; injection E as -> ->.
        -- congruence.
        -- inversion Hpre; congruence.
    + rewrite IH. split.
      * intros (pre & q & post & -> & Hpre & Hq).
        exists (p :: pre), q, post. repeat split; [now constructor | exact Hq].
      * intros (pre & q & post & E & Hpre & Hq).
        destruct pre as [|p' pre]; simpl in E; injection E as -> ->.
        -- congruence.
        -- exists pre, q, post. inversion Hpre. now repeat split.
Qed.

(** C1, as stated, fails: the ISO pattern matches the whole line, the match
    does not parse (month 13), and the time-only pattern is tried all the
    same and gives the timestamp that is returned. Under an interpreter
    older than 3.11 a one-digit fraction does the same. *)
Lemma later_tier_tried_after_failed_parse :
  (Re.search Re.iso bad_month_line = Some bad_month_line
   /\ convert rt_example bad_month_line = None
   /\ Re.search Re.time_only bad_month_line = Some "00:00:00.000"
   /\ parse_timestamp rt_example bad_month_line
      = Some (Datetime.combine (today rt_example) (Datetime.mktime 0 0 0 0)))
  /\ (Re.search Re.iso short_fraction_line = Some short_fraction_line
      /\ convert rt_legacy short_fraction_line = None
      /\ parse_timestamp rt_legacy short_fraction_line
         = Some (Datetime.combine (today rt_legacy)
                   (Datetime.mktime 0 0 7 500000))).
Proof. repeat split; reflexivity. Qed.

(** C1, amended: a pattern whose match fails to parse is passed over like a
    pattern that does not match, and the following patterns are tried in
    order; [parse_timestamp] returns the timestamp of the first pattern whose
    match parses, and none if no pattern has one. *)
Theorem parse_timestamp_first_parsed (rt : runtime) (line : string) :
  parse_timestamp rt line
  = or_else (tier rt Re.iso line)
      (or_else (tier rt Re.standard line) (tier rt Re.time_only line))
  /\ (forall m,
         Re.search Re.iso line = Some m -> convert rt m = None ->
         parse_timestamp rt line
         = or_else (tier rt Re.standard line) (tier rt Re.time_only line)).
Proof.
  assert (E : parse_timestamp rt line
              = or_else (tier rt Re.iso line)
                  (or_else (tier rt Re.standard line)
                     (tier rt Re.time_only line))).
  { unfold parse_timestamp, patterns. rewrite !loop_cons. simpl.
    now destruct (tier rt Re.time_only line). }
  split; [exact E|].
  intros m Hm Hc. rewrite E. unfold tier at 1. now rewrite Hm, Hc.
Qed.

Lemma parse_timestamp_first_parsed_witness :
  parse_timestamp rt_example bad_month_line
  = or_else (tier rt_example Re.standard bad_month_line)
      (tier rt_example Re.time_only bad_month_line).
Proof.
  exact (proj2 (parse_timestamp_first_parsed rt_example bad_month_line)
           bad_month_line eq_refl eq_refl).
Defined.

(** ** Which parser a pattern's match goes to *)

Section Dispatch.

Lemma all_chars_weaken (P Q : ascii -> bool) (s : string) :
  (forall c, P c = true -> Q c = true) ->
  all_chars P s = true -> all_chars Q s = true.
Proof.
  intros HPQ. induction s as [|c s IH]; simpl; [easy|].
  rewrite !andb_true_iff. intros [Hc Hs]. split; [now apply HPQ | now apply IH].
Qed.

Lemma char_of_tail (a : Re.atom) (p : Re.pattern) (c : ascii) :
  char_of p c = true -> char_of (a :: p) c = true.
Proof.
  unfold char_of, lit_in. simpl. rewrite !orb_true_iff.
  intros [H|H]; [now left | right; right; exact H].
Qed.

Lemma plus_digits_chars (rest : string -> option string) (P : ascii -> bool) :
  (forall c, Str.is_digit c = true -> P c = true) ->
  (forall s m, rest s = Some m -> all_chars P m = true) ->
  forall s m, Re.plus_digits rest s = Some m -> all_chars P m = true.
Proof.
  intros Hd Hrest. induction s as [|c s IH]; intros m H; [discriminate|].
  simpl in H. destruct (Str.is_digit c) eqn:Hc; [|discriminate].
  destruct (Re.plus_digits rest s) as [m1|].
  - injection H as <-. simpl. now rewrite (Hd _ Hc), (IH m1).
  - destruct (rest s) as [m2|] eqn:Hr; [|discriminate].
    injection H as <-. simpl. now rewrite (Hd _ Hc), (Hrest _ _ Hr).
Qed.

Lemma match_here_chars (p : Re.pattern) (s m : string) :
  Re.match_here p s = Some m -> all_chars (char_of p) m = true.
Proof.
  revert s m. induction p as [|a p IH]; intros s m H.
  - injection H as <-. reflexivity.
  - destruct a as [|x|].
    + destruct s as [|c s]; [discriminate|]. simpl in H.
      destruct (Str.is_digit c) eqn:Hc; [|discriminate].
      destruct (Re.match_here p s) as [m'|] eqn:Hm; [|discriminate].
      injection H as <-. simpl. apply andb_true_iff. split.
      * unfold char_of. now rewrite Hc.
      * apply (all_chars_weaken (char_of p)); [apply char_of_tail | eauto].
    + destruct s as [|c s]; [discriminate|]. simpl in H.
      destruct (Ascii.eqb c x) eqn:Hc; [|discriminate].
      destruct (Re.match_here p s) as [m'|] eqn:Hm; [|discriminate].
      injection H as <-. simpl. apply andb_true_iff. split.
      * unfold char_of, lit_in. simpl. now rewrite Hc, orb_true_r.
      * apply (all_chars_weaken (char_of p)); [apply char_of_tail | eauto].
    + simpl in H. revert H. apply plus_digits_chars.
      * intros c Hc. unfold char_of. now rewrite Hc.
      * intros s' m' Hm. apply (all_chars_weaken (char_of p));
          [apply char_of_tail | eauto].
Qed.

Lemma search_match (p : Re.pattern) (s m : string) :
  Re.search p s = Some m -> exists s', Re.match_here p s' = Some m.
Proof.
  induction s as [|c s IH]; simpl.
  - destruct (Re.match_here p EmptyString) eqn:E; [|discriminate].
    intros H. injection H as <-. eauto.
  - destruct (Re.match_here p (String c s)) eqn:E.
    + intros H. injection H as <-. eauto.
    + exact IH.
Qed.

Lemma match_digit (p : Re.pattern) (s m : string) :
  Re.match_here (Re.Digit :: p) s = Some m ->
  exists c s' m', s = String c s' /\ m = String c m'
                  /\ Re.match_here p s' = Some m'.
Proof.
  destruct s as [|c s]; [discriminate|]. simpl.
  destruct (Str.is_digit c); [|discriminate].
  destruct (Re.match_here p s) as [m'|] eqn:Hm; [|discriminate].
  intros H. injection H as <-. now exists c, s, m'.
Qed.

Lemma match_lit (a : ascii) (p : Re.pattern) (s m : string) :
  Re.match_here (Re.Lit a :: p) s = Some m ->
  exists s' m', s = String a s' /\ m = String a m'
                /\ Re.match_here p s' = Some m'.
Proof.
  destruct s as [|c s]; [discriminate|]. simpl.
  destruct (Ascii.eqb c a) eqn:E; [|discriminate].
  apply Ascii.eqb_eq in E. subst c.
  destruct (Re.match_here p s) as [m'|] eqn:Hm; [|discriminate].
  intros H. injection H as <-. now exists s, m'.
Qed.

Lemma contains_head (x : ascii) (h : string) :
  Str.contains (String x EmptyString) (String x h) = true.
Proof. simpl. now rewrite Ascii.eqb_refl. Qed.

Lemma contains_skip (n : string) (c : ascii) (h : string) :
  Str.contains n h = true -> Str.contains n (String c h) = true.
Proof. intros H. rewrite contains_unfold, H. apply orb_true_r. Qed.

Lemma contains_char_false (x : ascii) (m : string) :
  all_chars (fun c => negb (Ascii.eqb x c)) m = true ->
  Str.contains (String x EmptyString) m = false.
Proof.
  induction m as [|c m IH]; [reflexivity|].
  simpl all_chars. rewrite andb_true_iff, negb_true_iff. intros [Hc Hm].
  rewrite contains_unfold. simpl Str.starts_with. now rewrite Hc, (IH Hm).
Qed.

Lemma absent_char (p : Re.pattern) (x : ascii) (m : string) :
  (forall c, char_of p c = true -> negb (Ascii.eqb x c) = true) ->
  all_chars (char_of p) m = true ->
  Str.contains (String x EmptyString) m = false.
Proof.
  intros Hx Hm. apply contains_char_false.
  now apply (all_chars_weaken (char_of p)).
Qed.

Lemma standard_has_no_T (c : ascii) :
  char_of Re.standard c = true -> negb (Ascii.eqb "T" c) = true.
Proof.
  destruct c as [[|] [|] [|] [|] [|] [|] [|] [|]];
    vm_compute; intros H; first [reflexivity | discriminate].
Qed.

Lemma time_only_has_no_T (c : ascii) :
  char_of Re.time_only c = true -> negb (Ascii.eqb "T" c) = true.
Proof.
  destruct c as [[|] [|] [|] [|] [|] [|] [|] [|]];
    vm_compute; intros H; first [reflexivity | discriminate].
Qed.

Lemma time_only_has_no_space (c : ascii) :
  char_of Re.time_only c = true -> negb (Ascii.eqb " " c) = true.
Proof.
  destruct c as [[|] [|] [|] [|] [|] [|] [|] [|]];
    vm_compute; intros H; first [reflexivity | discriminate].
Qed.

Ltac peel H :=
  repeat first
    [ apply match_digit in H; destruct H as (? & ? & ? & -> & -> & H)
    | apply match_lit in H; destruct H as (? & ? & -> & -> & H) ].

Ltac find_char :=
  repeat first [ exact (contains_head _ _) | apply contains_skip ].

Variable rt : runtime.

(** A match of the ISO pattern holds a [T]: it goes to [fromisoformat]. *)
Lemma convert_iso (line m : string) :
  Re.search Re.iso line = Some m ->
  convert rt m
  = Datetime.fromisoformat (iso_any_fraction rt)
      (Str.replace_char "Z" "+00:00" m).
Proof.
  intros H. apply search_match in H. destruct H as [s H].
  assert (HT : Str.contains "T" m = true).
  { cbv [Re.iso Re.ymd Re.time_only Re.d2 Re.d4 app] in H.
    peel H. find_char. }
  unfold convert. now rewrite HT.
Qed.

(** A match of the standard pattern holds a space and no [T]: it goes to
    [strptime] with the date-and-time format. *)
Lemma convert_standard (line m : string) :
  Re.search Re.standard line = Some m ->
  convert rt m = Datetime.strptime_datetime m.
Proof.
  intros H. apply search_match in H. destruct H as [s H].
  assert (HT : Str.contains "T" m = false).
  { apply (absent_char Re.standard); [apply standard_has_no_T|].
    now apply (match_here_chars _ s). }
  assert (HS : Str.contains " " m = true).
  { cbv [Re.standard Re.ymd Re.time_only Re.d2 Re.d4 app] in H.
    peel H. find_char. }
  unfold convert. now rewrite HT, HS.
Qed.

(** A match of the time-only pattern holds neither: it goes to [strptime]
    with the time format and is combined with today's date. *)
Lemma convert_time_only (line m : string) :
  Re.search Re.time_only line = Some m ->
  convert rt m
  = option_map (Datetime.combine (today rt)) (Datetime.strptime_time m).
Proof.
  intros H. apply search_match in H. destruct H as [s H].
  pose proof (match_here_chars _ _ _ H) as Hc.
  unfold convert.
  rewrite (absent_char Re.time_only "T" m time_only_has_no_T Hc).
  now rewrite (absent_char Re.time_only " " m time_only_has_no_space Hc).
Qed.

End Dispatch.

(** ** Sorting *)

Section SortedFacts.

Context {A : Type} (leb : A -> A -> bool).
Hypothesis leb_total : forall a b, leb a b = true \/ leb b a = true.

Let le (a b : A) : Prop := leb a b = true.

Lemma insert_permutation (x : A) (l : list A) :
  Permutation (x :: l) (insert leb x l).
Proof.
  induction l as [|y l IH]; simpl; [reflexivity|].
  destruct (leb x y); [reflexivity|].
  rewrite perm_swap. now constructor.
Qed.

Lemma sorted_permutation (l : list A) : Permutation l (sorted leb l).
Proof.
  induction l as [|x l IH]; simpl; [constructor|].
  rewrite <- insert_permutation. now constructor.
Qed.

Lemma sorted_length (l : list A) : List.length (sorted leb l) = List.length l.
Proof. symmetry. apply Permutation_length, sorted_permutation. Qed.

Lemma insert_head (x y : A) (l : list A) :
  le y x -> HdRel le y l -> HdRel le y (insert leb x l).
Proof.
  intros Hyx Hl. destruct l as [|z l]; simpl; [now constructor|].
  destruct (leb x z); constructor; [exact Hyx | now inversion Hl].
Qed.

Lemma insert_ordered (x : A) (l : list A) :
  Sorted le l -> Sorted le (insert leb x l).
Proof.
  induction 1 as [|y l Hs IH Hh]; simpl; [now repeat constructor|].
  destruct (leb x y) eqn:E.
  - constructor; [now constructor | now constructor].
  - constructor; [exact IH|].
    apply insert_head; [|exact Hh].
    destruct (leb_total x y) as [H|H]; [congruence | exact H].
Qed.

Lemma sorted_ordered (l : list A) : Sorted le (sorted leb l).
Proof.
  induction l as [|x l IH]; simpl; [constructor | now apply insert_ordered].
Qed.

End SortedFacts.

Lemma Qle_bool_total (a b : Q) : Qle_bool a b = true \/ Qle_bool b a = true.
Proof.
  rewrite !Qle_bool_iff.
  destruct (Qlt_le_dec a b) as [H|H]; [left; now apply Qlt_le_weak | now right].
Qed.

(** ** The statistics of a version directory *)

(** C5: when at least one duration was collected, the median reported is the
    element at index [count / 2] (rounded down) of the durations put in
    ascending order: the upper of the two middle ones for an even count,
    not their mean. *)
Theorem median_is_upper_middle (t : tally) :
  t_durations t <> [] ->
  let s := sorted Qle_bool (t_durations t) in
  Permutation (t_durations t) s
  /\ Sorted (fun a b => Qle_bool a b = true) s
  /\ (List.length s / 2 < List.length s)%nat
  /\ median_duration (summarize t)
     = nth_error s (List.length (t_durations t) / 2).
Proof.
  intros Hne s.
  assert (Hlen : List.length s = List.length (t_durations t))
    by apply sorted_length.
  assert (Hpos : (0 < List.length (t_durations t))%nat)
    by (destruct (t_durations t); [contradiction | simpl; lia]).
  assert (Hidx : (List.length s / 2 < List.length s)%nat)
    by (apply Nat.div_lt; lia).
  split; [apply sorted_permutation|].
  split; [apply sorted_ordered, Qle_bool_total|].
  split; [exact Hidx|].
  unfold summarize, duration_statistics.
  destruct (t_durations t) as [|d ds] eqn:E; [contradiction|].
  cbn [median_duration]. fold s. rewrite Hlen.
  symmetry. apply nth_error_nth'. now rewrite Hlen in Hidx |- *.
Qed.

Lemma median_is_upper_middle_witness :
  t_durations runs_4_6 = [4%Q; 6%Q]
  /\ median_duration (summarize runs_4_6) = Some 6%Q.
Proof.
  split; [reflexivity|].
  refine (proj2 (proj2 (proj2 (median_is_upper_middle runs_4_6 _)))).
  discriminate.
Defined.

(** The median of 1, 2, 3, 4 is 3, and that of 4, 3, 1, 2 as well. *)
Example median_of_four :
  duration_statistics [1; 2; 3; 4]%Q
  = (Some (5 # 2), Some 3, Some 1, Some 4)%Q
  /\ duration_statistics [4; 3; 1; 2]%Q
     = (Some (5 # 2), Some 3, Some 1, Some 4)%Q.
Proof. split; reflexivity. Qed.

(** ** Printing *)

Section Printing.

Context {L : Type}.

Lemma outcome_bind {A B : Type} (m : io L A) (k : A -> io L B) :
  outcome (io_bind m k)
  = match outcome m with
    | Ok a => outcome (k a)
    | Raise e => Raise e
    end.
Proof. unfold io_bind. now destruct (outcome m). Qed.

Lemma outcome_bind_ok {A B : Type} (m : io L A) (k : A -> io L B) (b : B) :
  outcome (io_bind m k) = Ok b ->
  exists a, outcome m = Ok a /\ outcome (k a) = Ok b.
Proof.
  rewrite outcome_bind. destruct (outcome m) as [a|]; [|discriminate].
  intros H. now exists a.
Qed.

Lemma printed_bind_ok {A B : Type} (m : io L A) (k : A -> io L B) (a : A) :
  outcome m = Ok a ->
  printed (io_bind m k) = (printed m ++ printed (k a))%list.
Proof. unfold io_bind. now intros ->. Qed.

(** What was printed stays printed. *)
Lemma printed_bind_left {A B : Type} (m : io L A) (k : A -> io L B) (x : L) :
  In x (printed m) -> In x (printed (io_bind m k)).
Proof.
  unfold io_bind. destruct (outcome m); simpl; [|easy].
  intros H. apply in_or_app. now left.
Qed.

Lemma printed_bind_right {A B : Type} (m : io L A) (k : A -> io L B)
  (a : A) (x : L) :
  outcome m = Ok a -> In x (printed (k a)) -> In x (printed (io_bind m k)).
Proof.
  intros Hm H. rewrite (printed_bind_ok _ _ _ Hm). apply in_or_app. now right.
Qed.

Lemma Forall_printed_bind {A B : Type} (P : L -> Prop) (m : io L A)
  (k : A -> io L B) :
  Forall P (printed m) ->
  (forall a, outcome m = Ok a -> Forall P (printed (k a))) ->
  Forall P (printed (io_bind m k)).
Proof.
  intros Hm Hk. unfold io_bind. destruct (outcome m) as [a|] eqn:E; simpl.
  - apply Forall_app. split; [exact Hm | now apply Hk].
  - exact Hm.
Qed.

Lemma Forall_printed_print (P : L -> Prop) (l : L) :
  P l -> Forall P (printed (print l)).
Proof. intros H. now repeat constructor. Qed.

Lemma Forall_printed_for_each {A : Type} (P : L -> Prop)
  (f : A -> io L unit) (l : list A) :
  (forall x, In x l -> Forall P (printed (f x))) ->
  Forall P (printed (for_each f l)).
Proof.
  induction l as [|x l IH]; intros H; simpl; [constructor|].
  apply Forall_printed_bind; [apply H; now left|].
  intros _ _. apply IH. intros y Hy. apply H. now right.
Qed.

(** A loop that ran to its end printed what each of its turns printed. *)
Lemma for_each_printed {A : Type} (f : A -> io L unit) (l : list A)
  (x : A) (y : L) :
  outcome (for_each f l) = Ok tt ->
  In x l -> In y (printed (f x)) -> In y (printed (for_each f l)).
Proof.
  induction l as [|z l IH]; intros Hok Hin Hy; [easy|].
  simpl in Hok |- *.
  destruct (outcome_bind_ok _ _ _ Hok) as [[] [Hz Hrest]].
  destruct Hin as [->|Hin].
  - now apply printed_bind_left.
  - apply (printed_bind_right _ _ tt); [exact Hz | now apply IH].
Qed.

(** A loop one of whose turns ends with [e], the turns before it ending
    well or with [e] too, ends with [e]. *)
Lemma for_each_raises {A : Type} (f : A -> io L unit) (l : list A)
  (x : A) (e : exn) :
  (forall z, In z l -> outcome (f z) = Ok tt \/ outcome (f z) = Raise e) ->
  In x l -> outcome (f x) = Raise e ->
  outcome (for_each f l) = Raise e.
Proof.
  induction l as [|z l IH]; intros Hall Hin Hx; [easy|].
  simpl. rewrite outcome_bind.
  destruct (Hall z (or_introl eq_refl)) as [Hz|Hz]; rewrite Hz; [|reflexivity].
  destruct Hin as [->|Hin]; [congruence|].
  apply IH; [|exact Hin | exact Hx].
  intros w Hw. apply Hall. now right.
Qed.

End Printing.

(** ** The console report *)

(** C2, amended: the duration delta and percentage are printed exactly when
    both averages are present and different from zero; when either is unset
    or exactly 0, a baseline average of 0 included, the duration comparison
    prints nothing and divides nothing. *)
Theorem duration_comparison_guard (baseline test_summary : VersionSummary) :
  duration_comparison baseline test_summary
  = match avg_duration baseline, avg_duration test_summary with
    | Some b, Some t =>
        if Qeq_bool b 0 || Qeq_bool t 0 then ([], Ok tt)
        else ([DurationChange (Qred (t - b))
                 (Qred (Qred (Qred (t - b) / b) * 100))], Ok tt)
    | _, _ => ([], Ok tt)
    end.
Proof.
  unfold duration_comparison, truthy.
  destruct (avg_duration baseline) as [b|]; [|reflexivity].
  destruct (avg_duration test_summary) as [t|];
    [|now destruct (Qeq_bool b 0)].
  destruct (Qeq_bool b 0) eqn:Hb; [reflexivity|].
  destruct (Qeq_bool t 0); [reflexivity|].
  cbn. unfold true_div. now rewrite Hb.
Qed.

(** C2, as stated, fails: with a baseline average of exactly 0 and a test
    average of 5, both present, [main] runs to its end, prints no duration
    change for the test version and raises nothing. *)
Lemma zero_baseline_average_is_skipped :
  averages rt_example zero_baseline_root
  = Ok [ ("baseline", Some 0%Q); ("v0.8.0-beta.2", Some 5%Q) ]
  /\ main rt_example zero_baseline_root
     = ([ Text "Analyzing baseline...";
          Text "Analyzing v0.8.0-beta.2...";
          Text "Directory v0.8.0-beta.2-with-n0-infra not found";
          Text "Directory v0.8.0-beta.2-n0-only-infra not found";
          Text (String "010" (Str.times "=" 60));
          Text "FEDIMINT LOG ANALYSIS SUMMARY";
          Text (Str.times "=" 60);
          Text (String "010" "BASELINE"); Text (Str.times "-" 40);
          TotalRuns 1; SuccessfulRuns 1; SuccessRate 1 1 100%Q;
          Text "Join duration: N/A";
          TotalErrors 0; TotalWarnings 0;
          Text (String "010" "V0.8.0-BETA.2"); Text (Str.times "-" 40);
          TotalRuns 1; SuccessfulRuns 1; SuccessRate 1 1 100%Q;
          Text "Join duration statistics:";
          Average 5%Q; Median 5%Q; Minimum 5%Q; Maximum 5%Q;
          TotalErrors 0; TotalWarnings 0;
          Text (String "010" "COMPARATIVE ANALYSIS (vs baseline)");
          Text (Str.times "-" 40);
          Text (String "010" "v0.8.0-beta.2:");
          ErrorChange 0; WarningChange 0; SuccessRateChange 0%Q ],
        Ok tt).
Proof. split; vm_compute; reflexivity. Qed.

(** ** Faults of the console report *)

Lemma summarize_together (t : tally) : stats_together (summarize t).
Proof.
  unfold stats_together, summarize, duration_statistics.
  destruct (t_durations t); [now left|].
  right. now repeat eexists.
Qed.

Lemma analyzed_together (rt : runtime) (dir : string) (n : node)
  (data : VersionDirectoryAnalysis) :
  analyze_version_directory rt dir n = Ok data -> stats_together (summary data).
Proof.
  unfold analyze_version_directory. destruct n as [|entries]; [discriminate|].
  destruct (fold_left _ _ _) as [t|]; [|discriminate].
  simpl. intros H. injection H as <-. apply summarize_together.
Qed.

Lemma analyze_versions_together (rt : runtime) (root : list (string * node))
  (vs : list string) (results : results_t) :
  outcome (analyze_versions rt root vs) = Ok results ->
  Forall (fun vd => stats_together (summary (snd vd))) results.
Proof.
  revert results. induction vs as [|v vs IH]; intros results H.
  - injection H as <-. constructor.
  - simpl in H. destruct (lookup v root) as [n|].
    + rewrite !outcome_bind in H. simpl in H.
      destruct (analyze_version_directory rt v n) as [data|] eqn:Hd;
        [|discriminate].
      rewrite outcome_bind in H.
      destruct (outcome (analyze_versions rt root vs)) as [rest|];
        [|discriminate].
      injection H as <-.
      constructor; [exact (analyzed_together _ _ _ _ Hd) | now apply IH].
    + rewrite outcome_bind in H. simpl in H. now apply IH.
Qed.

Lemma rate_zero_runs (s : VersionSummary) :
  total_runs s = 0 -> rate s = Raise ZeroDivisionError.
Proof. unfold rate, true_div. now intros ->. Qed.

Lemma rate_some_runs (s : VersionSummary) :
  total_runs s <> 0 -> exists q, rate s = Ok q.
Proof.
  intros H. unfold rate, true_div.
  destruct (Qeq_bool (inject_Z (total_runs s)) 0) eqn:E.
  - apply Qeq_bool_eq in E. unfold Qeq in E. simpl in E. lia.
  - simpl. now eexists.
Qed.

(** The block of one version: printed to its end, or ended by the division. *)
Lemma print_summary_outcome (entry : string * VersionDirectoryAnalysis) :
  stats_together (summary (snd entry)) ->
  outcome (print_summary entry)
  = if total_runs (summary (snd entry)) =? 0
    then Raise ZeroDivisionError else Ok tt.
Proof.
  intros Hst. unfold print_summary.
  repeat (rewrite outcome_bind; simpl).
  destruct (Z.eqb_spec (total_runs (summary (snd entry))) 0) as [Hz|Hnz].
  - now rewrite (rate_zero_runs _ Hz).
  - destruct (rate_some_runs _ Hnz) as [q ->].
    destruct Hst as [Hn | (a & m & lo & hi & Ha & Hm & Hlo & Hhi)].
    + now rewrite Hn.
    + rewrite Ha, Hm, Hlo, Hhi. simpl.
      now destruct (Qeq_bool a 0).
Qed.

Lemma print_summary_zero_runs (entry : string * VersionDirectoryAnalysis) :
  total_runs (summary (snd entry)) = 0 ->
  outcome (print_summary entry) = Raise ZeroDivisionError
  /\ printed (print_summary entry)
     = [ Text (String "010" (Str.upper (fst entry)));
         Text (Str.times "-" 40);
         TotalRuns 0;
         SuccessfulRuns (successful_runs (summary (snd entry))) ].
Proof.
  intros Hz. unfold print_summary, io_bind. simpl.
  rewrite (rate_zero_runs _ Hz). simpl. now rewrite Hz.
Qed.

(** C6: when a version that was analysed has no run at all, the success
    percentage of the console summary divides by zero right after the two
    run counts of that version are printed; nothing catches the fault and
    [main] ends with it. *)
Theorem zero_total_runs_faults (rt : runtime) (root : list (string * node))
  (results : results_t) (version : string) (data : VersionDirectoryAnalysis) :
  outcome (analyze_versions rt root versions) = Ok results ->
  In (version, data) results ->
  total_runs (summary data) = 0 ->
  outcome (print_summary (version, data)) = Raise ZeroDivisionError
  /\ outcome (main rt root) = Raise ZeroDivisionError.
Proof.
  intros Ha Hin Hz.
  destruct (print_summary_zero_runs (version, data) Hz) as [Hp _].
  split; [exact Hp|].
  unfold main, report. rewrite outcome_bind, Ha.
  repeat (rewrite outcome_bind; simpl).
  rewrite (for_each_raises print_summary results (version, data)
             ZeroDivisionError); [reflexivity | | exact Hin | exact Hp].
  intros z Hz'. rewrite print_summary_outcome.
  - destruct (total_runs (summary (snd z)) =? 0); [now right | now left].
  - pose proof (analyze_versions_together _ _ _ _ Ha) as Hall.
    rewrite Forall_forall in Hall. now apply Hall.
Qed.

Lemma zero_total_runs_faults_witness :
  outcome (analyze_versions rt_example empty_baseline_root versions)
  = Ok [ ("baseline", empty_baseline) ]
  /\ outcome (print_summary ("baseline", empty_baseline))
     = Raise ZeroDivisionError
  /\ outcome (main rt_example empty_baseline_root) = Raise ZeroDivisionError.
Proof.
  split; [reflexivity|].
  exact (zero_total_runs_faults rt_example empty_baseline_root _
           "baseline" empty_baseline eq_refl (or_introl eq_refl) eq_refl).
Defined.

(** What [main] has printed when it ends on the empty baseline. *)
Example empty_baseline_run :
  main rt_example empty_baseline_root
  = ([ Text "Analyzing baseline...";
       Text "Directory v0.8.0-beta.2 not found";
       Text "Directory v0.8.0-beta.2-with-n0-infra not found";
       Text "Directory v0.8.0-beta.2-n0-only-infra not found";
       Text (String "010" (Str.times "=" 60));
       Text "FEDIMINT LOG ANALYSIS SUMMARY";
       Text (Str.times "=" 60);
       Text (String "010" "BASELINE"); Text (Str.times "-" 40);
       TotalRuns 0; SuccessfulRuns 0 ],
     Raise ZeroDivisionError).
Proof. reflexivity. Qed.

(** ** The markdown report *)

Ltac io_rows :=
  repeat first
    [ apply Forall_nil
    | apply Forall_printed_print; try exact I
    | apply Forall_printed_bind; [| intros ? ?] ].

Section Rows.

Variable results : results_t.

Let good := row_shows_literal results.

Lemma summary_row_literal (version : string) :
  In version versions -> Forall good (printed (summary_row results version)).
Proof.
  intros Hin. unfold summary_row.
  destruct (lookup version results) as [data|] eqn:Hl; [|apply Forall_nil].
  io_rows. now exists version, data.
Qed.

Lemma change_row_literal (baseline : VersionSummary) (version : string) :
  Forall good (printed (change_row results baseline version)).
Proof.
  unfold change_row.
  destruct (lookup version results) as [data|]; io_rows.
Qed.

Lemma error_row_literal (e w : Z) (version : string) :
  Forall good (printed (error_row results e w version)).
Proof.
  unfold error_row.
  destruct (lookup version results) as [data|]; io_rows.
Qed.

Lemma run_rows_literal (runs : list TestRunAnalysis) (i : Z) :
  Forall good (printed (run_rows i runs)).
Proof.
  revert i. induction runs as [|run runs IH]; intros i; simpl.
  - apply Forall_nil.
  - unfold run_row. io_rows. apply IH.
Qed.

Lemma run_table_literal (version : string) :
  Forall good (printed (run_table results version)).
Proof.
  unfold run_table.
  destruct (lookup version results) as [data|]; io_rows.
  apply run_rows_literal.
Qed.

Lemma report_rows_literal :
  Forall good (printed (generate_detailed_report results)).
Proof.
  unfold generate_detailed_report.
  io_rows;
    first [ apply summary_row_literal; simpl; tauto
          | apply change_row_literal
          | apply error_row_literal
          | apply run_table_literal ].
Qed.

(** A row that was asked for and did not end the report was printed. *)
Lemma summary_row_printed (version : string) (data : VersionDirectoryAnalysis) :
  lookup version results = Some data ->
  outcome (summary_row results version) = Ok tt ->
  exists name avg median lo hi range,
    printed (summary_row results version)
    = [SummaryRow name avg median lo hi range
         (Str.of_Z (successful_runs (summary data)) ++ "/"
          ++ Str.of_Z (total_runs (summary data)) ++ " (100%)")].
Proof.
  intros Hl. unfold summary_row. rewrite Hl.
  unfold io_bind, success_rate_text.
  destruct (item version version_names) as [name|]; simpl; [|discriminate].
  destruct (avg_duration (summary data)) as [a|]; simpl; [|discriminate].
  destruct (median_duration (summary data)) as [m|]; simpl; [|discriminate].
  destruct (min_duration (summary data)) as [lo|]; simpl; [|discriminate].
  destruct (max_duration (summary data)) as [hi|]; simpl; [|discriminate].
  intros _. now repeat eexists.
Qed.

End Rows.

Lemma for_each_ok_each {L A : Type} (f : A -> io L unit) (l : list A) (x : A) :
  outcome (for_each f l) = Ok tt -> In x l -> outcome (f x) = Ok tt.
Proof.
  induction l as [|z l IH]; intros Hok Hin; [easy|].
  simpl in Hok. destruct (outcome_bind_ok _ _ _ Hok) as [[] [Hz Hrest]].
  destruct Hin as [->|Hin]; [exact Hz | now apply IH].
Qed.

(** C4: every statistics row the report prints shows, in its success-rate
    column, the two run counts of its version followed by the fixed text
    (100%), whatever the counts are; and a report that runs to its end has
    printed such a row for each version present. *)
Theorem success_rate_column_is_literal (results : results_t) :
  (forall name avg median lo hi range success_rate,
      In (SummaryRow name avg median lo hi range success_rate)
         (printed (generate_detailed_report results)) ->
      exists version data,
        In version versions /\ lookup version results = Some data
        /\ success_rate
           = Str.of_Z (successful_runs (summary data)) ++ "/"
             ++ Str.of_Z (total_runs (summary data)) ++ " (100%)")
  /\ (forall version data,
         outcome (generate_detailed_report results) = Ok tt ->
         In version versions -> lookup version results = Some data ->
         exists name avg median lo hi range,
           In (SummaryRow name avg median lo hi range
                 (Str.of_Z (successful_runs (summary data)) ++ "/"
                  ++ Str.of_Z (total_runs (summary data)) ++ " (100%)"))
              (printed (generate_detailed_report results))).
Proof.
  split.
  - intros name avg median lo hi range success_rate Hin.
    pose proof (report_rows_literal results) as Hall.
    rewrite Forall_forall in Hall. exact (Hall _ Hin).
  - intros version data Hok Hin Hl.
    unfold generate_detailed_report in *.
    do 6 (apply outcome_bind_ok in Hok; destruct Hok as [[] [_ Hok]]).
    apply outcome_bind_ok in Hok. destruct Hok as [[] [Hrows _]].
    pose proof (for_each_ok_each _ _ _ Hrows Hin) as Hrow.
    destruct (summary_row_printed results version data Hl Hrow)
      as (name & a & m & lo & hi & r & Hp).
    exists name, a, m, lo, hi, r.
    do 6 (apply (printed_bind_right _ _ tt); [reflexivity|]).
    apply printed_bind_left.
    apply (for_each_printed _ _ version); [exact Hrows | exact Hin|].
    rewrite Hp. now left.
Qed.

Lemma success_rate_column_is_literal_witness :
  outcome (generate_detailed_report three_of_five) = Ok tt
  /\ exists name avg median lo hi range,
       In (SummaryRow name avg median lo hi range "3/5 (100%)")
          (printed (generate_detailed_report three_of_five)).
Proof.
  split; [reflexivity|].
  exact (proj2 (success_rate_column_is_literal three_of_five)
           "baseline" _ eq_refl (or_introl eq_refl) eq_refl).
Defined.

(** The report on three successful runs out of five. *)
Example three_of_five_report :
  generate_detailed_report three_of_five
  = ([ Md "# FEDIMINT v0.8.0-beta.2 REGRESSION ANALYSIS - DETAILED REPORT";
       Md EmptyString; Md "## Performance Statistics Summary"; Md EmptyString;
       Md "| Version | Avg (s) | Median (s) | Min (s) | Max (s) | Range (s) | Success Rate |";
       Md "|---------|---------|------------|---------|---------|-----------|--------------|";
       SummaryRow "v0.7.2 (baseline)" 4%Q 4%Q 2%Q 6%Q 4%Q "3/5 (100%)";
       Md EmptyString; Md "## Performance Comparison (vs Baseline)";
       Md EmptyString;
       Md "| Version | Avg Change | Median Change | Min Change | Max Change |";
       Md "|---------|------------|---------------|------------|------------|";
       Md EmptyString; Md "## Error and Warning Analysis"; Md EmptyString;
       Md "| Version | CLI Errors | Total Warnings | Errors vs Baseline | Warnings vs Baseline |";
       Md "|---------|------------|----------------|--------------------|--------------------|";
       ErrorRow "v0.7.2 (baseline)" 0 0 "-" "-";
       Md EmptyString; Md "## Individual Test Run Details"; Md EmptyString;
       Md "### v0.7.2 (baseline)"; Md EmptyString;
       Md "| Run | Duration (s) | Success | CLI Errors | CLI Warnings | Notable Issues |";
       Md "|-----|--------------|---------|------------|--------------|----------------|";
       Md EmptyString ],
     Ok tt).
Proof. reflexivity. Qed.

(** * The worked examples of the specification *)

(** The three-line CLI log: one error, no warning, joined, ten seconds, one
    known issue. *)
Example end_to_end_scenario :
  analyze_log_file rt_example "run/fedimint-cli.log"
    (Lines [ "2024-01-01T00:00:00.000Z START";
             "2024-01-01T00:00:05.000Z ERROR disco box failed";
             "2024-01-01T00:00:10.000Z {" ++ joined_marker ++ ": true}" ])
  = Ok {| file := "run/fedimint-cli.log"; error_count := 1; warn_count := 0;
          first_timestamp := Some "2024-01-01T00:00:00+00:00";
          last_timestamp := Some "2024-01-01T00:00:10+00:00";
          duration_seconds := Some 10%Q; success := true;
          notable_issues := ["Disco box error"] |}.
Proof. reflexivity. Qed.

(** Runs of 4 and 6 seconds: mean 5, median 6, least 4, most 6. *)
Example statistics_of_4_and_6 :
  duration_statistics [4; 6]%Q = (Some 5, Some 6, Some 4, Some 6)%Q.
Proof. reflexivity. Qed.

(** A baseline average of 10 and a test average of 12: two seconds and
    twenty percent more. *)
Example plus_twenty_percent :
  duration_comparison
    (mkVersionSummary 1 1 (Some 10%Q) (Some 10%Q) (Some 10%Q) (Some 10%Q) 0 0)
    (mkVersionSummary 1 1 (Some 12%Q) (Some 12%Q) (Some 12%Q) (Some 12%Q) 0 0)
  = ([DurationChange 2%Q 20%Q], Ok tt).
Proof. reflexivity. Qed.

(** One line, two known issues. *)
Example two_issues_on_one_line :
  issues_of "Disco Box lookup via dns.iroh.link"
  = ["Disco box error"; "DNS resolution failure"].
Proof. reflexivity. Qed.

(** Run directories are put in the order of their names as text. *)
Example run_directories_in_text_order :
  map fst
    (sorted name_leb
       [ ("test-run2", Dir []); ("test-run10", Dir []); ("test-run1", Dir []) ])
  = ["test-run1"; "test-run10"; "test-run2"].
Proof. reflexivity. Qed.

(** * Further properties *)

(** ** More on scanning a log file *)

Section ScanMore.

Variable rt : runtime.

Lemma solid_WARN : solid "WARN" = true.
Proof. reflexivity. Qed.

Lemma scan_line_warns (st : scan) (raw : string) :
  sc_warn_count (scan_line rt st raw)
  = sc_warn_count st + (if Str.contains "WARN" raw then 1 else 0).
Proof.
  unfold scan_line. destruct (Str.is_empty (Str.strip raw)) eqn:He.
  - rewrite (strip_empty_contains _ _ solid_WARN He). lia.
  - rewrite (contains_strip _ raw solid_WARN).
    destruct (parse_timestamp rt (Str.strip raw)); simpl;
      destruct (Str.contains "WARN" raw); lia.
Qed.

Lemma fold_scan_warns (lines : list string) (st : scan) :
  sc_warn_count (fold_left (scan_line rt) lines st)
  = sc_warn_count st
    + Z.of_nat (List.length (filter (Str.contains "WARN") lines)).
Proof.
  revert st. induction lines as [|raw lines IH]; intros st; simpl.
  - lia.
  - rewrite IH, scan_line_warns.
    destruct (Str.contains "WARN" raw); simpl List.length; lia.
Qed.

Lemma scan_line_issues (st : scan) (raw : string) :
  sc_notable_issues (scan_line rt st raw)
  = (sc_notable_issues st ++ issues_of (Str.strip raw))%list.
Proof.
  unfold scan_line. destruct (Str.strip raw) as [|c s] eqn:E.
  - simpl. now rewrite app_nil_r.
  - simpl Str.is_empty. cbv iota.
    now destruct (parse_timestamp rt (String c s)).
Qed.

Lemma fold_scan_issues (lines : list string) (st : scan) :
  sc_notable_issues (fold_left (scan_line rt) lines st)
  = (sc_notable_issues st
     ++ flat_map (fun raw => issues_of (Str.strip raw)) lines)%list.
Proof.
  revert st. induction lines as [|raw lines IH]; intros st; simpl.
  - now rewrite app_nil_r.
  - now rewrite IH, scan_line_issues, app_assoc.
Qed.

(** *** Stripping twice is stripping once *)

Lemma rstrip_idem (s : string) : Str.rstrip (Str.rstrip s) = Str.rstrip s.
Proof.
  induction s as [|c s IH]; [reflexivity|].
  simpl. destruct (Str.rstrip s) as [|c' r] eqn:E.
  - destruct (Str.is_space c) eqn:Hc; [reflexivity|].
    simpl. now rewrite Hc.
  - simpl. simpl in IH. now rewrite IH.
Qed.

Lemma rstrip_keeps_head (c : ascii) (s : string) :
  Str.is_space c = false ->
  exists r, Str.rstrip (String c s) = String c r.
Proof.
  intros Hc. simpl. destruct (Str.rstrip s).
  - rewrite Hc. now eexists.
  - now eexists.
Qed.

Lemma lstrip_head (s : string) :
  Str.lstrip s = EmptyString
  \/ exists c r, Str.lstrip s = String c r /\ Str.is_space c = false.
Proof.
  induction s as [|c s IH]; [now left|].
  simpl. destruct (Str.is_space c) eqn:Hc; [exact IH|].
  right. now exists c, s.
Qed.

Lemma strip_idem (s : string) : Str.strip (Str.strip s) = Str.strip s.
Proof.
  unfold Str.strip.
  destruct (lstrip_head s) as [E | (c & r & E & Hc)]; rewrite E.
  - reflexivity.
  - destruct (rstrip_keeps_head c r Hc) as [r' E']. rewrite E'.
    simpl Str.lstrip. rewrite Hc. rewrite <- E'. apply rstrip_idem.
Qed.

Lemma scan_line_blank (st : scan) (raw : string) :
  nonblank raw = false -> scan_line rt st raw = st.
Proof.
  unfold nonblank, scan_line. rewrite negb_false_iff. now intros ->.
Qed.

Lemma scan_line_strip (st : scan) (raw : string) :
  scan_line rt st (Str.strip raw) = scan_line rt st raw.
Proof. unfold scan_line. now rewrite strip_idem. Qed.

Lemma fold_scan_normal (lines : list string) (st : scan) :
  fold_left (scan_line rt) (map Str.strip (filter nonblank lines)) st
  = fold_left (scan_line rt) lines st.
Proof.
  revert st. induction lines as [|raw lines IH]; intros st; [reflexivity|].
  simpl. destruct (nonblank raw) eqn:E.
  - simpl. now rewrite scan_line_strip, IH.
  - now rewrite (scan_line_blank st raw E), IH.
Qed.

End ScanMore.

(** X1: in a returned analysis [error_count] is the number of lines in
    which ERROR occurs and [warn_count] the number of lines in which WARN
    occurs (WARNING included), every other line counting for nothing. *)
Theorem counts_are_line_counts (rt : runtime) (path : string)
  (lines : list string) (r : LogAnalysis) :
  analyze_log_file rt path (Lines lines) = Ok r ->
  error_count r = Z.of_nat (List.length (filter (Str.contains "ERROR") lines))
  /\ warn_count r = Z.of_nat (List.length (filter (Str.contains "WARN") lines)).
Proof.
  intros H. apply finish_fields in H. destruct H as (_ & -> & -> & _).
  unfold scan_lines. now rewrite fold_scan_errors, fold_scan_warns.
Qed.

Lemma counts_are_line_counts_witness :
  exists r,
    analyze_log_file rt_example "cli.log" (Lines noisy_lines) = Ok r
    /\ error_count r = 1 /\ warn_count r = 2.
Proof.
  eexists. split; [reflexivity|].
  exact (counts_are_line_counts rt_example "cli.log" noisy_lines _ eq_refl).
Defined.

(** X2: lines of white space only, and white space around a line, count
    for nothing: the analysis of a file is that of its non-blank lines,
    stripped. *)
Theorem analysis_ignores_white_space (rt : runtime) (path : string)
  (lines : list string) :
  analyze_log_file rt path (Lines (map Str.strip (filter nonblank lines)))
  = analyze_log_file rt path (Lines lines).
Proof.
  unfold analyze_log_file, scan_lines. now rewrite fold_scan_normal.
Qed.

(** X3: the analysis of a readable file ends in an exception exactly when
    the first and the last timestamp met differ in zone awareness; the
    exception is then [TypeError], and no other one ever leaves it. *)
Theorem analysis_raises_iff_mixed_awareness (rt : runtime) (path : string)
  (lines : list string) :
  (forall e, analyze_log_file rt path (Lines lines) = Raise e -> e = TypeError)
  /\ (analyze_log_file rt path (Lines lines) = Raise TypeError
      <-> exists t1 t2,
            hd_error (stamps rt lines) = Some t1
            /\ final (stamps rt lines) = Some t2
            /\ same_awareness t1 t2 = false).
Proof.
  unfold analyze_log_file, finish.
  rewrite scan_lines_first, scan_lines_last.
  destruct (hd_error (stamps rt lines)) as [t1|];
    [destruct (final (stamps rt lines)) as [t2|]|]; simpl.
  - unfold Datetime.sub.
    destruct (Datetime.tzinfo t2) as [[]|] eqn:E2,
             (Datetime.tzinfo t1) as [[]|] eqn:E1;
      simpl; (split; [intros e He; congruence|]); split;
      try discriminate; try reflexivity.
    + intros (a & b & Ha & Hb & Hab).
      injection Ha as <-. injection Hb as <-.
      unfold same_awareness in Hab. rewrite E1, E2 in Hab. discriminate.
    + intros _. exists t1, t2. unfold same_awareness. now rewrite E1, E2.
    + intros _. exists t1, t2. unfold same_awareness. now rewrite E1, E2.
    + intros (a & b & Ha & Hb & Hab).
      injection Ha as <-. injection Hb as <-.
      unfold same_awareness in Hab. rewrite E1, E2 in Hab. discriminate.
  - split; [discriminate|]. split; [discriminate|].
    intros (a & b & _ & Hb & _). discriminate.
  - split; [discriminate|]. split; [discriminate|].
    intros (a & b & Ha & _). discriminate.
Qed.

Lemma analysis_raises_iff_mixed_awareness_witness :
  analyze_log_file rt_example "cli.log" (Lines mixed_lines) = Raise TypeError.
Proof.
  apply (proj2 (analysis_raises_iff_mixed_awareness rt_example "cli.log"
                  mixed_lines)).
  eexists. eexists. repeat split; reflexivity.
Defined.

(** X4: when the first timestamp met is also the last one, as in a file
    with a single timestamped line, the analysis returns with a duration of
    exactly 0 seconds (set, not unset). *)
Theorem single_timestamp_lasts_zero (rt : runtime) (path : string)
  (lines : list string) (t : Datetime.datetime) :
  hd_error (stamps rt lines) = Some t ->
  final (stamps rt lines) = Some t ->
  exists r,
    analyze_log_file rt path (Lines lines) = Ok r
    /\ duration_seconds r = Some 0%Q.
Proof.
  intros Hf Hl. unfold analyze_log_file, finish.
  rewrite scan_lines_first, scan_lines_last, Hf, Hl.
  unfold Datetime.sub.
  destruct (Datetime.tzinfo t) as [[]|]; simpl; rewrite Z.sub_diag;
    eexists; split; reflexivity.
Qed.

Lemma single_timestamp_lasts_zero_witness :
  exists r,
    analyze_log_file rt_example "cli.log"
      (Lines [ "boot"; "2024-01-01T00:00:00.000Z START"; "bye" ]) = Ok r
    /\ duration_seconds r = Some 0%Q.
Proof.
  exact (single_timestamp_lasts_zero rt_example "cli.log"
           [ "boot"; "2024-01-01T00:00:00.000Z START"; "bye" ] _
           eq_refl eq_refl).
Defined.

(** ** Known issues *)

Section Issues.

Lemma substring_of_trans (a b c : string) :
  substring_of a b -> substring_of b c -> substring_of a c.
Proof.
  intros Hab [x [y ->]]. now apply substring_of_inside.
Qed.

Lemma disco_in_failed (s : string) :
  Str.contains "failed to open disco box" s = true ->
  Str.contains "disco box" s = true.
Proof.
  rewrite !contains_iff. apply substring_of_trans.
  exists "failed to open ", EmptyString. reflexivity.
Qed.

Lemma issues_of_cases (line : string) :
  issues_of line
  = ((if Str.contains "disco box" (Str.lower line)
      then ["Disco box error"] else [])
     ++ (if Str.contains "dns.iroh.link" (Str.lower line)
         then ["DNS resolution failure"] else [])
     ++ (if Str.contains "pkarr publish error" (Str.lower line)
         then ["PKarr protocol error"] else [])
     ++ (if Str.contains "failed to open disco box" (Str.lower line)
         then ["Failed to open disco box"] else []))%list.
Proof.
  unfold issues_of, known_issues. simpl filter.
  destruct (Str.contains "disco box" (Str.lower line)),
           (Str.contains "dns.iroh.link" (Str.lower line)),
           (Str.contains "pkarr publish error" (Str.lower line)),
           (Str.contains "failed to open disco box" (Str.lower line));
    reflexivity.
Qed.

Lemma issues_of_failed_le (line : string) :
  (count_label "Failed to open disco box" (issues_of line)
   <= count_label "Disco box error" (issues_of line))%nat.
Proof.
  rewrite issues_of_cases.
  destruct (Str.contains "failed to open disco box" (Str.lower line)) eqn:E.
  - rewrite (disco_in_failed _ E).
    destruct (Str.contains "dns.iroh.link" (Str.lower line)),
             (Str.contains "pkarr publish error" (Str.lower line));
      vm_compute; lia.
  - destruct (Str.contains "disco box" (Str.lower line)),
             (Str.contains "dns.iroh.link" (Str.lower line)),
             (Str.contains "pkarr publish error" (Str.lower line));
      vm_compute; lia.
Qed.

Lemma count_label_app (label : string) (l1 l2 : list string) :
  count_label label (l1 ++ l2)
  = (count_label label l1 + count_label label l2)%nat.
Proof. apply count_occ_app. Qed.



End Issues.

(** X5: the notable issues of a returned analysis are those of its lines,
    line after line in the order of the file; and the label for a failed
    opening of the disco box never comes without the disco box label of the
    same line, so that it is never the more frequent of the two. *)
Theorem notable_issues_by_line (rt : runtime) (path : string)
  (lines : list string) (r : LogAnalysis) :
  analyze_log_file rt path (Lines lines) = Ok r ->
  notable_issues r = flat_map (fun raw => issues_of (Str.strip raw)) lines
  /\ (count_label "Failed to open disco box" (notable_issues r)
      <= count_label "Disco box error" (notable_issues r))%nat.
Proof.
  intros H. apply finish_fields in H.
  destruct H as (_ & _ & _ & _ & _ & _ & Hn).
  unfold scan_lines in Hn. rewrite fold_scan_issues in Hn. simpl in Hn.
  split; [exact Hn|]. rewrite Hn. clear Hn.
  induction lines as [|raw lines IH]; simpl; [lia|].
  rewrite !count_label_app.
  pose proof (issues_of_failed_le (Str.strip raw)). lia.
Qed.

Lemma notable_issues_by_line_witness :
  exists r,
    analyze_log_file rt_example "cli.log" (Lines disco_lines) = Ok r
    /\ notable_issues r
       = [ "Disco box error"; "Failed to open disco box"; "Disco box error" ].
Proof.
  eexists. split; [reflexivity|].
  exact (proj1 (notable_issues_by_line rt_example "cli.log" disco_lines _
                  eq_refl)).
Defined.


(** ** More on the timestamp extractor *)

Section Parsers.

Ltac break_match H :=
  repeat match type of H with
         | context [match ?x with _ => _ end] =>
             destruct x eqn:?; try discriminate
         end.

Lemma make_some (y m d h mi s us : Z) (tz : option Datetime.timezone)
  (t : Datetime.datetime) :
  Datetime.make y m d h mi s us tz = Some t ->
  t = Datetime.mkdatetime (Datetime.mkdate y m d) (Datetime.mktime h mi s us) tz
  /\ Datetime.check_date_fields y m d = true
  /\ Datetime.check_time_fields h mi s us = true.
Proof.
  unfold Datetime.make.
  destruct (Datetime.check_date_fields y m d); [|discriminate].
  destruct (Datetime.check_time_fields h mi s us); [|discriminate].
  intros H. injection H as <-. now repeat split.
Qed.

Lemma fromisoformat_some (any_length : bool) (s : string)
  (t : Datetime.datetime) :
  Datetime.fromisoformat any_length s = Some t ->
  Datetime.tzinfo t = Some Datetime.utc
  /\ valid_date (Datetime.date_of t) = true
  /\ valid_time (Datetime.time_of t) = true.
Proof.
  unfold Datetime.fromisoformat. intros H. break_match H.
  apply make_some in H. destruct H as (-> & Hd & Ht).
  now repeat split.
Qed.

Lemma strptime_datetime_some (s : string) (t : Datetime.datetime) :
  Datetime.strptime_datetime s = Some t ->
  Datetime.tzinfo t = None
  /\ valid_date (Datetime.date_of t) = true
  /\ valid_time (Datetime.time_of t) = true.
Proof.
  unfold Datetime.strptime_datetime. intros H. break_match H.
  apply make_some in H. destruct H as (-> & Hd & Ht).
  now repeat split.
Qed.

Lemma strptime_time_some (s : string) (tm : Datetime.time) :
  Datetime.strptime_time s = Some tm -> valid_time tm = true.
Proof.
  unfold Datetime.strptime_time. intros H. break_match H.
  injection H as <-. assumption.
Qed.

Variable rt : runtime.

Lemma tier_iso_some (line : string) (t : Datetime.datetime) :
  tier rt Re.iso line = Some t ->
  Datetime.tzinfo t = Some Datetime.utc
  /\ valid_date (Datetime.date_of t) = true
  /\ valid_time (Datetime.time_of t) = true.
Proof.
  unfold tier. destruct (Re.search Re.iso line) as [m|] eqn:E; [|discriminate].
  rewrite (convert_iso rt line m E). apply fromisoformat_some.
Qed.

Lemma tier_standard_some (line : string) (t : Datetime.datetime) :
  tier rt Re.standard line = Some t ->
  Datetime.tzinfo t = None
  /\ valid_date (Datetime.date_of t) = true
  /\ valid_time (Datetime.time_of t) = true.
Proof.
  unfold tier.
  destruct (Re.search Re.standard line) as [m|] eqn:E; [|discriminate].
  rewrite (convert_standard rt line m E). apply strptime_datetime_some.
Qed.

Lemma tier_time_only_some (line : string) (t : Datetime.datetime) :
  tier rt Re.time_only line = Some t ->
  Datetime.tzinfo t = None
  /\ Datetime.date_of t = today rt
  /\ valid_time (Datetime.time_of t) = true.
Proof.
  unfold tier.
  destruct (Re.search Re.time_only line) as [m|] eqn:E; [|discriminate].
  rewrite (convert_time_only rt line m E).
  destruct (Datetime.strptime_time m) as [tm|] eqn:Hm; [|discriminate].
  simpl. intros H. injection H as <-. simpl.
  repeat split. exact (strptime_time_some _ _ Hm).
Qed.

(** The pattern a returned timestamp comes from. *)
Lemma parse_timestamp_cases (line : string) (t : Datetime.datetime) :
  parse_timestamp rt line = Some t ->
  tier rt Re.iso line = Some t
  \/ tier rt Re.iso line = None /\ tier rt Re.standard line = Some t
  \/ tier rt Re.iso line = None /\ tier rt Re.standard line = None
     /\ tier rt Re.time_only line = Some t.
Proof.
  unfold parse_timestamp, patterns. rewrite !loop_cons. simpl.
  destruct (tier rt Re.iso line); simpl; [intros H; now left|].
  destruct (tier rt Re.standard line); simpl; [intros H; right; now left|].
  destruct (tier rt Re.time_only line); simpl; [|discriminate].
  intros H. right. right. now repeat split.
Qed.

End Parsers.

(** X7: a timestamp the extractor returns is in UTC when the ISO pattern
    gave it and naive otherwise; one that the time-only pattern gave, the
    two patterns with a date having given none, carries today's date. *)
Theorem timestamp_zone_by_pattern (rt : runtime) (line : string)
  (t : Datetime.datetime) :
  parse_timestamp rt line = Some t ->
  (tier rt Re.iso line = Some t /\ Datetime.tzinfo t = Some Datetime.utc)
  \/ (tier rt Re.iso line = None /\ tier rt Re.standard line = Some t
      /\ Datetime.tzinfo t = None)
  \/ (tier rt Re.iso line = None /\ tier rt Re.standard line = None
      /\ tier rt Re.time_only line = Some t
      /\ Datetime.tzinfo t = None /\ Datetime.date_of t = today rt).
Proof.
  intros H.
  destruct (parse_timestamp_cases rt line t H) as [H1 | [[H1 H2] | (H1 & H2 & H3)]].
  - left. split; [exact H1|]. now apply (tier_iso_some rt line).
  - right. left. repeat split; try assumption.
    now apply (tier_standard_some rt line).
  - right. right. repeat split; try assumption;
      now apply (tier_time_only_some rt line).
Qed.

Lemma timestamp_zone_by_pattern_witness :
  parse_timestamp rt_example leap_day_line
  = Some (Datetime.mkdatetime (today rt_example)
            (Datetime.mktime 10 0 0 500000) None)
  /\ tier rt_example Re.standard leap_day_line = None
  /\ Re.search Re.standard leap_day_line = Some "2023-02-29 10:00:00.5".
Proof.
  assert (H : parse_timestamp rt_example leap_day_line
              = Some (Datetime.mkdatetime (today rt_example)
                        (Datetime.mktime 10 0 0 500000) None))
    by reflexivity.
  split; [exact H|].
  destruct (timestamp_zone_by_pattern rt_example leap_day_line _ H)
    as [[H1 _] | [(_ & H2 & _) | (_ & H2 & _)]].
  - discriminate H1.
  - discriminate H2.
  - split; [exact H2 | reflexivity].
Defined.

(** X8: the clock fields of a returned timestamp are always those of a time
    of day (hour below 24, minute and second below 60, at most 999999
    microseconds), and its date is a day that exists whenever today is. *)
Theorem timestamp_fields_in_range (rt : runtime) (line : string)
  (t : Datetime.datetime) :
  parse_timestamp rt line = Some t ->
  valid_time (Datetime.time_of t) = true
  /\ (valid_date (today rt) = true -> valid_date (Datetime.date_of t) = true).
Proof.
  intros H.
  destruct (parse_timestamp_cases rt line t H) as [H1 | [[_ H2] | (_ & _ & H3)]].
  - destruct (tier_iso_some rt line t H1) as (_ & Hd & Ht). now split.
  - destruct (tier_standard_some rt line t H2) as (_ & Hd & Ht). now split.
  - destruct (tier_time_only_some rt line t H3) as (_ & Hd & Ht).
    split; [exact Ht|]. now rewrite Hd.
Qed.

Lemma timestamp_fields_in_range_witness :
  valid_time (Datetime.mktime 10 0 0 500000) = true
  /\ valid_date (today rt_example) = true.
Proof.
  destruct (timestamp_fields_in_range rt_example leap_day_line
              (Datetime.mkdatetime (today rt_example)
                 (Datetime.mktime 10 0 0 500000) None) eq_refl) as [Ht Hd].
  split; [exact Ht | exact (Hd eq_refl)].
Defined.

(** ** Run directories *)

Section Names.

Lemma append_assoc_s (a b c : string) : (a ++ b) ++ c = a ++ b ++ c.
Proof. induction a as [|x a IH]; simpl; [reflexivity | now rewrite IH]. Qed.

Lemma length_append_s (a b : string) :
  String.length (a ++ b) = (String.length a + String.length b)%nat.
Proof. induction a as [|x a IH]; simpl; [reflexivity | now rewrite IH]. Qed.

Lemma substring_all (s : string) : String.substring 0 (String.length s) s = s.
Proof. induction s as [|x s IH]; simpl; [reflexivity | now rewrite IH]. Qed.

Lemma substring_front (a b : string) :
  String.substring 0 (String.length a) (a ++ b) = a.
Proof.
  induction a as [|x a IH]; simpl.
  - now destruct b.
  - now rewrite IH.
Qed.

Lemma substring_back (a b : string) :
  String.substring (String.length a) (String.length b) (a ++ b) = b.
Proof.
  induction a as [|x a IH]; simpl; [apply substring_all | exact IH].
Qed.

Lemma substring_split (s : string) (i : nat) :
  (i <= String.length s)%nat ->
  s = String.substring 0 i s ++ String.substring i (String.length s - i) s.
Proof.
  revert i. induction s as [|x s IH]; intros i Hi.
  - simpl in Hi. assert (i = 0)%nat by lia. now subst.
  - destruct i as [|i].
    + simpl. now rewrite substring_all.
    + simpl. simpl in Hi. rewrite <- IH by lia. reflexivity.
Qed.

Lemma ends_with_iff (suffix s : string) :
  ends_with suffix s = true <-> exists p, s = p ++ suffix.
Proof.
  unfold ends_with. rewrite andb_true_iff, Nat.leb_le, String.eqb_eq. split.
  - intros [Hle Hs].
    exists (String.substring 0 (String.length s - String.length suffix) s).
    assert (Hi : (String.length s - String.length suffix
                  <= String.length s)%nat) by lia.
    pose proof (substring_split s _ Hi) as Hsplit.
    replace (String.length s - (String.length s - String.length suffix))%nat
      with (String.length suffix) in Hsplit by lia.
    now rewrite Hs in Hsplit.
  - intros [p ->]. rewrite length_append_s. split; [lia|].
    replace (String.length p + String.length suffix - String.length suffix)%nat
      with (String.length p) by lia.
    apply substring_back.
Qed.

End Names.

(** X9: a file name is taken for a log of the given kind exactly when it is
    made of any text, the kind's name, any text, and the ending .log. *)
Theorem glob_log_names (infix name : string) :
  glob_log infix name = true
  <-> exists a b, name = a ++ infix ++ b ++ ".log".
Proof.
  unfold glob_log. rewrite andb_true_iff, ends_with_iff, contains_iff. split.
  - intros [[p Hp] [a [b Hab]]]. exists a, b.
    rewrite Hp in Hab. rewrite length_append_s in Hab. simpl in Hab.
    replace (String.length p + 4 - 4)%nat with (String.length p) in Hab by lia.
    rewrite substring_front in Hab. rewrite Hp, Hab.
    now rewrite !append_assoc_s.
  - intros [a [b ->]]. split.
    + exists (a ++ infix ++ b). now rewrite !append_assoc_s.
    + exists a, b.
      replace (a ++ infix ++ b ++ ".log") with ((a ++ infix ++ b) ++ ".log")
        by now rewrite !append_assoc_s.
      rewrite length_append_s. simpl.
      replace (String.length (a ++ infix ++ b) + 4 - 4)%nat
        with (String.length (a ++ infix ++ b)) by lia.
      apply substring_front.
Qed.

Section TestRun.

Variable rt : runtime.

Lemma filter_head {A : Type} (f : A -> bool) (l : list A) :
  match filter f l with
  | [] => None
  | x :: _ => Some x
  end = find f l.
Proof.
  induction l as [|x l IH]; simpl; [reflexivity|].
  now destruct (f x).
Qed.

Lemma analyze_first_find (dir infix : string) (entries : list (string * node)) :
  analyze_first rt dir (filter (fun e => glob_log infix (fst e)) entries)
  = analysis_of rt dir (first_log infix entries).
Proof.
  unfold first_log. rewrite <- filter_head.
  destruct (filter (fun e => glob_log infix (fst e)) entries) as [|[name n] l];
    reflexivity.
Qed.


Lemma analyze_log_file_path (path : string) (content : read_outcome)
  (a : LogAnalysis) :
  analyze_log_file rt path content = Ok a -> file a = path.
Proof.
  destruct content as [lines|msg]; simpl.
  - intros H. now apply finish_fields in H.
  - intros H. now injection H as <-.
Qed.



Lemma analyze_test_run_dir (dir : string) (entries : list (string * node))
  (r : TestRunAnalysis) :
  analyze_test_run rt dir entries = Ok r -> run_dir r = dir.
Proof.
  unfold analyze_test_run.
  destruct (analyze_first rt dir _); simpl; [|discriminate].
  destruct (analyze_first rt dir _); simpl; [|discriminate].
  intros H. now injection H as <-.
Qed.

Lemma test_run_parts (dir : string) (entries : list (string * node))
  (r : TestRunAnalysis) :
  analyze_test_run rt dir entries = Ok r ->
  run_dir r = dir
  /\ analysis_of rt dir (first_log "fedimint-cli" entries)
     = Ok (cli_analysis r)
  /\ analysis_of rt dir (first_log "fedimintd-peer0" entries)
     = Ok (peer_analysis r).
Proof.
  intros H. split; [exact (analyze_test_run_dir dir entries r H)|].
  unfold analyze_test_run in H. rewrite !analyze_first_find in H.
  destruct (analysis_of rt dir (first_log "fedimint-cli" entries))
    as [cli|]; simpl in H; [|discriminate].
  destruct (analysis_of rt dir (first_log "fedimintd-peer0" entries))
    as [peer|]; simpl in H; [|discriminate].
  injection H as <-. now split.
Qed.

End TestRun.

(** X10: of the files of a run directory whose name fits, only the first in
    the order of the listing is read, for the CLI log and for the peer log
    alike; the run analysis holds the analysis of that file under its path,
    and none where no name fits. *)
Theorem test_run_reads_first_match (rt : runtime) (dir : string)
  (entries : list (string * node)) (r : TestRunAnalysis) :
  analyze_test_run rt dir entries = Ok r ->
  run_dir r = dir
  /\ analysis_of rt dir (first_log "fedimint-cli" entries)
     = Ok (cli_analysis r)
  /\ analysis_of rt dir (first_log "fedimintd-peer0" entries)
     = Ok (peer_analysis r)
  /\ (forall a, cli_analysis r = Some a ->
      exists name n,
        first_log "fedimint-cli" entries = Some (name, n)
        /\ file a = join dir name).
Proof.
  intros H.
  destruct (test_run_parts rt dir entries r H) as (Hd & Hc & Hp).
  split; [exact Hd|]. split; [exact Hc|]. split; [exact Hp|].
  intros a Ha. rewrite Ha in Hc.
  destruct (first_log "fedimint-cli" entries) as [[name n]|]; [|discriminate].
  exists name, n. split; [reflexivity|].
  simpl in Hc.
  destruct (analyze_log_file rt (join dir name) (read_node (join dir name) n))
    as [a'|] eqn:Ea; simpl in Hc; [|discriminate].
  injection Hc as ->. exact (analyze_log_file_path rt _ _ _ Ea).
Qed.

Lemma test_run_reads_first_match_witness :
  exists r a,
    analyze_test_run rt_example "run" two_cli_logs = Ok r
    /\ cli_analysis r = Some a
    /\ file a = "run/a-fedimint-cli-1.log"
    /\ error_count a = 1
    /\ peer_analysis r = None.
Proof.
  eexists. eexists.
  split; [reflexivity|]. split; [reflexivity|].
  destruct (test_run_reads_first_match rt_example "run" two_cli_logs _ eq_refl)
    as (_ & _ & _ & H).
  destruct (H _ eq_refl) as (name & n & Hf & Hp).
  injection Hf as <- <-.
  split; [exact Hp|]. split; reflexivity.
Defined.

(** ** Version directories *)

Section Tally.

Lemma Zsum_app (l1 l2 : list Z) : Zsum (l1 ++ l2) = Zsum l1 + Zsum l2.
Proof. induction l1 as [|x l1 IH]; simpl; [reflexivity | rewrite IH; lia]. Qed.

(** Adding a run to the tally of some runs gives the tally of the runs with
    that one at the end. *)
Lemma record_run_tally (runs : list TestRunAnalysis) (r : TestRunAnalysis) :
  record_run (tally_of runs) r = tally_of (runs ++ [r]).
Proof.
  unfold record_run, tally_of, cli_success, run_errors, run_warnings,
    run_duration, count_of.
  rewrite length_app, filter_app, !map_app, !Zsum_app, flat_map_app.
  simpl List.length. simpl filter. simpl map. simpl flat_map. simpl Zsum.
  rewrite app_nil_r.
  destruct (cli_analysis r) as [cli|], (peer_analysis r) as [peer|]; simpl;
    try destruct (success cli); try destruct (duration_seconds cli);
    f_equal; rewrite ?length_app, ?app_nil_r; simpl List.length;
    try reflexivity; lia.
Qed.

Variable rt : runtime.
Variable dir : string.

Lemma fold_visit_raise (l : list (string * node)) (e : exn) :
  fold_left (visit_run rt dir) l (Raise e) = Raise e.
Proof. induction l as [|x l IH]; simpl; [reflexivity | exact IH]. Qed.

Lemma visit_run_ok (t : tally) (name : string) (n : node) :
  visit_run rt dir (Ok t) (name, n)
  = match n with
    | Dir entries =>
        run_analysis <- analyze_test_run rt (join dir name) entries ;;
        Ok (record_run t run_analysis)
    | File _ => Ok t
    end.
Proof. reflexivity. Qed.

(** The loop over the run directories: the tally of the runs so far and of
    the analyses of the directories met, in their order. *)
Lemma fold_visit_runs (l : list (string * node)) (runs0 : list TestRunAnalysis)
  (t : tally) :
  fold_left (visit_run rt dir) l (Ok (tally_of runs0)) = Ok t ->
  exists runs,
    t = tally_of (runs0 ++ runs)
    /\ Forall2 (run_of rt dir) (filter is_dir l) runs.
Proof.
  revert runs0. induction l as [|[name n] l IH]; intros runs0 H.
  - simpl in H. injection H as <-. exists []. rewrite app_nil_r.
    split; [reflexivity | constructor].
  - cbn [fold_left] in H. rewrite visit_run_ok in H.
    destruct n as [content|entries].
    + apply IH in H. destruct H as [runs [Ht Hf]].
      exists runs. split; [exact Ht | exact Hf].
    + destruct (analyze_test_run rt (join dir name) entries) as [r|e] eqn:Er;
        simpl in H.
      * rewrite record_run_tally in H. apply IH in H.
        destruct H as [runs [Ht Hf]].
        exists (r :: runs). rewrite <- app_assoc in Ht.
        split; [exact Ht|]. simpl. constructor; [|exact Hf].
        exists entries. now split.
      * rewrite fold_visit_raise in H. discriminate.
Qed.


(** What a returned version analysis is made of. *)
Lemma analyzed_runs (entries : list (string * node))
  (a : VersionDirectoryAnalysis) :
  analyze_version_directory rt dir (Dir entries) = Ok a ->
  version_dir a = dir
  /\ summary a = summarize (tally_of (test_runs a))
  /\ Forall2 (run_of rt dir)
       (filter is_dir (sorted name_leb (filter is_test_dir entries)))
       (test_runs a).
Proof.
  unfold analyze_version_directory.
  destruct (fold_left _ _ _) as [t|] eqn:E; simpl; [|discriminate].
  intros H. injection H as <-. simpl.
  change tally0 with (tally_of []) in E.
  apply fold_visit_runs in E. destruct E as [runs [-> Hf]]. simpl.
  now repeat split.
Qed.

End Tally.

Section Counts.

Variable rt : runtime.

Lemma analyze_log_file_counts (path : string) (content : read_outcome)
  (a : LogAnalysis) :
  analyze_log_file rt path content = Ok a ->
  0 <= error_count a /\ 0 <= warn_count a.
Proof.
  destruct content as [lines|msg]; simpl.
  - intros H. apply finish_fields in H. destruct H as (_ & -> & -> & _).
    unfold scan_lines. rewrite fold_scan_errors, fold_scan_warns. simpl. lia.
  - intros H. injection H as <-. simpl. lia.
Qed.

Lemma analysis_of_counts (dir : string) (e : option (string * node))
  (o : option LogAnalysis) :
  analysis_of rt dir e = Ok o ->
  0 <= count_of error_count o /\ 0 <= count_of warn_count o.
Proof.
  destruct e as [[name n]|]; simpl.
  - destruct (analyze_log_file rt (join dir name) (read_node (join dir name) n))
      as [a|] eqn:E; simpl; [|discriminate].
    intros H. injection H as <-. simpl.
    exact (analyze_log_file_counts _ _ _ E).
  - intros H. injection H as <-. simpl. lia.
Qed.

Lemma run_of_counts (dir : string) (e : string * node) (r : TestRunAnalysis) :
  run_of rt dir e r -> 0 <= run_errors r /\ 0 <= run_warnings r.
Proof.
  intros [entries [_ H]].
  destruct (test_run_parts rt _ _ _ H) as (_ & Hc & Hp).
  apply analysis_of_counts in Hc. apply analysis_of_counts in Hp.
  unfold run_errors, run_warnings. lia.
Qed.

Lemma Zsum_nonneg (l : list Z) : Forall (fun z => 0 <= z) l -> 0 <= Zsum l.
Proof. induction 1; simpl; lia. Qed.

Lemma filter_length_le {A : Type} (f : A -> bool) (l : list A) :
  (List.length (filter f l) <= List.length l)%nat.
Proof.
  induction l as [|x l IH]; simpl; [lia|]. destruct (f x); simpl; lia.
Qed.

End Counts.

Section Order.

Lemma name_leb_total (a b : string * node) :
  name_leb a b = true \/ name_leb b a = true.
Proof. apply String.leb_total. Qed.

Lemma filter_all {A : Type} (f : A -> bool) (l : list A) :
  Forall (fun x => f x = true) l -> filter f l = l.
Proof.
  induction 1 as [|x l Hx _ IH]; simpl; [reflexivity|].
  now rewrite Hx, IH.
Qed.

Lemma test_dirs_are_dirs (entries : list (string * node)) :
  filter is_dir (sorted name_leb (filter is_test_dir entries))
  = sorted name_leb (filter is_test_dir entries).
Proof.
  apply filter_all. apply Forall_forall. intros e He.
  apply (Permutation_in _
           (Permutation_sym (sorted_permutation name_leb _))) in He.
  apply filter_In in He. destruct He as [_ He].
  unfold is_test_dir in He. unfold is_dir. now destruct (snd e).
Qed.

End Order.

(** X11: the summary of a returned version analysis is made from its runs
    and from nothing else: [total_runs] is their number, [successful_runs]
    the number of those whose CLI log joined, the two totals add up the
    counts of the CLI and of the peer log of every run, and the four
    statistics are those of the durations of the CLI logs, in the order of
    the runs. *)
Theorem summary_is_of_the_runs (rt : runtime) (dir : string) (n : node)
  (a : VersionDirectoryAnalysis) :
  analyze_version_directory rt dir n = Ok a ->
  version_dir a = dir
  /\ total_runs (summary a) = Z.of_nat (List.length (test_runs a))
  /\ successful_runs (summary a)
     = Z.of_nat (List.length (filter cli_success (test_runs a)))
  /\ total_errors (summary a) = Zsum (map run_errors (test_runs a))
  /\ total_warnings (summary a) = Zsum (map run_warnings (test_runs a))
  /\ (avg_duration (summary a), median_duration (summary a),
      min_duration (summary a), max_duration (summary a))
     = duration_statistics (flat_map run_duration (test_runs a)).
Proof.
  destruct n as [c|entries]; [discriminate|]. intros H.
  destruct (analyzed_runs rt dir entries a H) as (Hd & Hs & _).
  split; [exact Hd|]. rewrite Hs. unfold summarize. simpl t_durations.
  destruct (duration_statistics (flat_map run_duration (test_runs a)))
    as [[[avg med] lo] hi].
  now repeat split.
Qed.

Lemma summary_is_of_the_runs_witness :
  exists a,
    analyze_version_directory rt_example "baseline" mixed_version_dir = Ok a
    /\ total_runs (summary a) = 3
    /\ successful_runs (summary a) = 2
    /\ total_errors (summary a) = 1
    /\ total_warnings (summary a) = 1
    /\ (avg_duration (summary a), median_duration (summary a),
        min_duration (summary a), max_duration (summary a))
       = (Some (5 # 2), Some 5, Some 0, Some 5)%Q.
Proof.
  eexists. split; [reflexivity|].
  exact (proj2 (summary_is_of_the_runs rt_example "baseline" mixed_version_dir
                  _ eq_refl)).
Defined.

(** X12: in a returned version analysis the successful runs are at most
    the runs there are, and neither they nor the two totals are negative. *)
Theorem summary_counts_in_range (rt : runtime) (dir : string) (n : node)
  (a : VersionDirectoryAnalysis) :
  analyze_version_directory rt dir n = Ok a ->
  0 <= successful_runs (summary a) <= total_runs (summary a)
  /\ 0 <= total_errors (summary a)
  /\ 0 <= total_warnings (summary a).
Proof.
  destruct n as [c|entries]; [discriminate|]. intros H.
  destruct (analyzed_runs rt dir entries a H) as (_ & Hs & Hf).
  rewrite Hs. unfold summarize. simpl t_durations.
  destruct (duration_statistics (flat_map run_duration (test_runs a)))
    as [[[avg med] lo] hi]. simpl.
  pose proof (filter_length_le cli_success (test_runs a)).
  assert (Hall : Forall (fun r => 0 <= run_errors r /\ 0 <= run_warnings r)
                   (test_runs a)).
  { clear Hs H0. induction Hf as [|e r l runs Hr _ IH]; constructor;
      [exact (run_of_counts rt dir e r Hr) | exact IH]. }
  repeat split; try lia.
  - apply Zsum_nonneg. rewrite Forall_map.
    eapply Forall_impl; [|exact Hall]. now intros r [? _].
  - apply Zsum_nonneg. rewrite Forall_map.
    eapply Forall_impl; [|exact Hall]. now intros r [_ ?].
Qed.

Lemma summary_counts_in_range_witness :
  exists a,
    analyze_version_directory rt_example "baseline" mixed_version_dir = Ok a
    /\ 0 <= successful_runs (summary a) <= total_runs (summary a)
    /\ 0 <= total_errors (summary a)
    /\ 0 <= total_warnings (summary a).
Proof.
  eexists. split; [reflexivity|].
  exact (summary_counts_in_range rt_example "baseline" mixed_version_dir
           _ eq_refl).
Defined.

(** X13: the runs of a returned version analysis are the analyses of the
    subdirectories whose name starts with test-run, one each, in the order
    of these names as text; files, and directories of another name, give no
    run. *)
Theorem runs_in_name_order (rt : runtime) (dir : string)
  (entries : list (string * node)) (a : VersionDirectoryAnalysis) :
  analyze_version_directory rt dir (Dir entries) = Ok a ->
  let dirs := sorted name_leb (filter is_test_dir entries) in
  Permutation (filter is_test_dir entries) dirs
  /\ Sorted (fun x y => String.leb (fst x) (fst y) = true) dirs
  /\ Forall2 (run_of rt dir) dirs (test_runs a)
  /\ map run_dir (test_runs a) = map (fun e => join dir (fst e)) dirs.
Proof.
  intros H dirs.
  destruct (analyzed_runs rt dir entries a H) as (_ & _ & Hf).
  rewrite test_dirs_are_dirs in Hf. fold dirs in Hf.
  split; [apply sorted_permutation|].
  split; [exact (sorted_ordered name_leb name_leb_total _)|].
  split; [exact Hf|].
  clear H. induction Hf as [|e r l runs [es [_ Hr]] _ IH]; [reflexivity|].
  simpl. now rewrite IH, (analyze_test_run_dir rt _ _ _ Hr).
Qed.

Lemma runs_in_name_order_witness :
  exists a,
    analyze_version_directory rt_example "baseline" mixed_version_dir = Ok a
    /\ map run_dir (test_runs a)
       = [ "baseline/test-run1"; "baseline/test-run10"; "baseline/test-run2" ].
Proof.
  eexists. split; [reflexivity|].
  exact (proj2 (proj2 (proj2
           (runs_in_name_order rt_example "baseline" mixed_entries _
              eq_refl)))).
Defined.



(** ** The statistics and the durations *)

Section Bounds.








End Bounds.



(** ** More on [main] *)

Section Main.

Lemma lookup_cons_same {V : Type} (k : string) (v : V)
  (d : list (string * V)) :
  lookup k ((k, v) :: d) = Some v.
Proof. simpl. now rewrite String.eqb_refl. Qed.

Lemma lookup_cons_other {V : Type} (k k' : string) (v : V)
  (d : list (string * V)) :
  k' <> k -> lookup k ((k', v) :: d) = lookup k d.
Proof. intros H. simpl. apply String.eqb_neq in H. now rewrite H. Qed.

Lemma lookup_in {V : Type} (k : string) (v : V) (d : list (string * V)) :
  lookup k d = Some v -> In (k, v) d.
Proof.
  induction d as [|[k' v'] d IH]; [discriminate|]. simpl.
  destruct (String.eqb k' k) eqn:E.
  - apply String.eqb_eq in E. intros H. injection H as <-. subst. now left.
  - intros H. right. now apply IH.
Qed.

Variable rt : runtime.
Variable root : list (string * node).

Lemma analyze_versions_keys (vs : list string) (results : results_t) :
  outcome (analyze_versions rt root vs) = Ok results ->
  forall version, lookup version results <> None -> In version vs.
Proof.
  revert results. induction vs as [|v vs IH]; intros results H version Hl.
  - injection H as <-. contradiction.
  - simpl in H. destruct (lookup v root) as [n|].
    + rewrite !outcome_bind in H. simpl in H.
      destruct (analyze_version_directory rt v n) as [data|]; [|discriminate].
      rewrite outcome_bind in H.
      destruct (outcome (analyze_versions rt root vs)) as [rest|] eqn:E;
        [|discriminate].
      injection H as <-. simpl in Hl.
      destruct (String.eqb v version) eqn:Ev.
      * apply String.eqb_eq in Ev. now left.
      * right. now apply (IH rest).
    + rewrite outcome_bind in H. simpl in H. right. now apply (IH results).
Qed.

(** What [results] holds for a version, by what the working directory
    holds for it. *)
Lemma analyze_versions_lookup (vs : list string) (results : results_t) :
  NoDup vs ->
  outcome (analyze_versions rt root vs) = Ok results ->
  forall version, In version vs ->
    match lookup version root with
    | Some n =>
        exists data,
          analyze_version_directory rt version n = Ok data
          /\ lookup version results = Some data
    | None => lookup version results = None
    end.
Proof.
  revert results. induction vs as [|v vs IH]; intros results Hnd H version Hin;
    [contradiction|].
  inversion Hnd as [|? ? Hnotin Hnd']; subst.
  simpl in H. destruct (lookup v root) as [n|] eqn:Hv.
  - rewrite !outcome_bind in H. simpl in H.
    destruct (analyze_version_directory rt v n) as [data|] eqn:Hd;
      [|discriminate].
    rewrite outcome_bind in H.
    destruct (outcome (analyze_versions rt root vs)) as [rest|] eqn:E;
      [|discriminate].
    injection H as <-.
    destruct Hin as [->|Hin].
    + rewrite Hv. exists data. split; [exact Hd | apply lookup_cons_same].
    + assert (Hne : v <> version) by (intros ->; contradiction).
      rewrite (lookup_cons_other _ _ _ _ Hne).
      exact (IH rest Hnd' eq_refl version Hin).
  - rewrite outcome_bind in H. simpl in H.
    destruct Hin as [->|Hin].
    + rewrite Hv.
      destruct (lookup version results) eqn:El; [|reflexivity].
      exfalso. apply Hnotin.
      apply (analyze_versions_keys vs results H). now rewrite El.
    + exact (IH results Hnd' H version Hin).
Qed.

Lemma analyze_versions_printed (vs : list string) (results : results_t) :
  outcome (analyze_versions rt root vs) = Ok results ->
  printed (analyze_versions rt root vs)
  = map (fun version =>
           match lookup version root with
           | Some _ => Text ("Analyzing " ++ version ++ "...")
           | None => Text ("Directory " ++ version ++ " not found")
           end) vs.
Proof.
  revert results. induction vs as [|v vs IH]; intros results H;
    [reflexivity|].
  cbn [analyze_versions map] in H |- *. destruct (lookup v root) as [n|].
  - rewrite !outcome_bind in H. simpl in H.
    destruct (analyze_version_directory rt v n) as [data|] eqn:Hd;
      [|discriminate].
    rewrite outcome_bind in H.
    destruct (outcome (analyze_versions rt root vs)) as [rest|] eqn:E;
      [|discriminate].
    rewrite (printed_bind_ok (print (Text ("Analyzing " ++ v ++ "..."))) _ tt
               eq_refl).
    cbv beta.
    rewrite (printed_bind_ok (lift (Ok data)) _ data eq_refl).
    cbv beta. rewrite (printed_bind_ok _ _ rest E).
    simpl. rewrite app_nil_r. now rewrite (IH rest eq_refl).
  - rewrite outcome_bind in H. simpl in H.
    rewrite (printed_bind_ok
               (print (Text ("Directory " ++ v ++ " not found"))) _ tt eq_refl).
    cbv beta. simpl. now rewrite (IH results H).
Qed.

End Main.

Lemma versions_distinct : NoDup versions.
Proof.
  unfold versions.
  repeat (constructor; [simpl; intuition discriminate|]). constructor.
Qed.

(** X16: once the directories are analysed, [results] holds for each of
    the four versions the analysis of its directory when the working
    directory has one and nothing when it has none, and one line was
    printed per version saying which. *)
Theorem results_follow_directories (rt : runtime)
  (root : list (string * node)) (results : results_t) :
  outcome (analyze_versions rt root versions) = Ok results ->
  (forall version, In version versions ->
     match lookup version root with
     | Some n =>
         exists data,
           analyze_version_directory rt version n = Ok data
           /\ lookup version results = Some data
     | None => lookup version results = None
     end)
  /\ (forall version, lookup version results <> None -> In version versions)
  /\ printed (analyze_versions rt root versions)
     = map (fun version =>
              match lookup version root with
              | Some _ => Text ("Analyzing " ++ version ++ "...")
              | None => Text ("Directory " ++ version ++ " not found")
              end) versions.
Proof.
  intros H. split; [|split].
  - exact (analyze_versions_lookup rt root versions results versions_distinct H).
  - exact (analyze_versions_keys rt root versions results H).
  - exact (analyze_versions_printed rt root versions results H).
Qed.

Lemma results_follow_directories_witness :
  exists results,
    outcome (analyze_versions rt_example two_versions_root versions)
    = Ok results
    /\ map fst results = [ "baseline"; "v0.8.0-beta.2" ]
    /\ lookup "v0.8.0-beta.2-with-n0-infra" results = None.
Proof.
  eexists. split; [reflexivity|]. split; [reflexivity|].
  exact (proj1 (results_follow_directories rt_example two_versions_root _
                  eq_refl)
           "v0.8.0-beta.2-with-n0-infra" (or_intror (or_intror (or_introl eq_refl)))).
Defined.

Section Report.

Lemma duration_comparison_ok (baseline test_summary : VersionSummary) :
  outcome (duration_comparison baseline test_summary) = Ok tt.
Proof.
  unfold duration_comparison, truthy.
  destruct (avg_duration baseline) as [b|]; [|reflexivity].
  destruct (avg_duration test_summary) as [t|];
    [|now destruct (Qeq_bool b 0)].
  destruct (Qeq_bool b 0) eqn:Hb; [reflexivity|].
  destruct (Qeq_bool t 0); [reflexivity|].
  simpl. repeat (rewrite outcome_bind; simpl).
  unfold true_div. now rewrite Hb.
Qed.

Lemma print_comparison_ok (results : results_t) (baseline : VersionSummary)
  (version : string) :
  (exists q, rate baseline = Ok q) ->
  (forall d, lookup version results = Some d ->
             exists q, rate (summary d) = Ok q) ->
  outcome (print_comparison results baseline version) = Ok tt.
Proof.
  intros [qb Hb] Hd. unfold print_comparison.
  destruct (lookup version results) as [d|]; [|reflexivity].
  destruct (Hd d eq_refl) as [qd Hqd].
  repeat (rewrite outcome_bind; simpl).
  now rewrite duration_comparison_ok, Hb, Hqd.
Qed.

Lemma all_have_runs_rate (results : results_t) (v : string)
  (d : VersionDirectoryAnalysis) :
  all_have_runs results = true -> lookup v results = Some d ->
  exists q, rate (summary d) = Ok q.
Proof.
  intros Hall Hl. apply lookup_in in Hl.
  unfold all_have_runs in Hall. rewrite forallb_forall in Hall.
  specialize (Hall _ Hl). simpl in Hall.
  apply rate_some_runs. apply negb_true_iff in Hall. now apply Z.eqb_neq.
Qed.

Lemma summaries_outcome (results : results_t) :
  Forall (fun vd => stats_together (summary (snd vd))) results ->
  outcome (for_each print_summary results)
  = if all_have_runs results then Ok tt else Raise ZeroDivisionError.
Proof.
  induction 1 as [|vd results Hvd _ IH]; [reflexivity|].
  simpl. rewrite outcome_bind, (print_summary_outcome vd Hvd).
  destruct (total_runs (summary (snd vd)) =? 0); simpl; [reflexivity|].
  exact IH.
Qed.

Lemma report_outcome (results : results_t) :
  Forall (fun vd => stats_together (summary (snd vd))) results ->
  outcome (report results)
  = if all_have_runs results then Ok tt else Raise ZeroDivisionError.
Proof.
  intros Hst. unfold report.
  repeat (rewrite outcome_bind; simpl).
  rewrite (summaries_outcome results Hst).
  destruct (all_have_runs results) eqn:Hall; [|reflexivity].
  destruct (lookup "baseline" results) as [b|] eqn:Hb; [|reflexivity].
  assert (Hpc : forall version,
             outcome (print_comparison results (summary b) version) = Ok tt).
  { intros version. apply print_comparison_ok.
    - exact (all_have_runs_rate results "baseline" b Hall Hb).
    - intros d Hd. exact (all_have_runs_rate results version d Hall Hd). }
  repeat (rewrite outcome_bind; simpl). now rewrite !Hpc.
Qed.

End Report.

(** X17: once the directories are analysed, [main] runs to its end exactly
    when every version analysed has at least one run; otherwise it ends in
    [ZeroDivisionError], and nothing else in the report can end it. *)
Theorem main_ends_by_run_counts (rt : runtime) (root : list (string * node))
  (results : results_t) :
  outcome (analyze_versions rt root versions) = Ok results ->
  outcome (main rt root)
  = if all_have_runs results then Ok tt else Raise ZeroDivisionError.
Proof.
  intros H. unfold main. rewrite outcome_bind, H.
  apply report_outcome. exact (analyze_versions_together _ _ _ _ H).
Qed.

Lemma main_ends_by_run_counts_witness :
  outcome (main rt_example two_versions_root) = Ok tt.
Proof.
  exact (main_ends_by_run_counts rt_example two_versions_root _ eq_refl).
Defined.

(** X18: for a version with runs, the block of the console summary shows
    the heading, the two run counts and the success rate, then the four
    duration statistics when the mean is set and not zero and the text N/A
    otherwise (a mean of exactly 0 included), then the two totals. *)
Theorem summary_block_lines (entry : string * VersionDirectoryAnalysis) :
  stats_together (summary (snd entry)) ->
  total_runs (summary (snd entry)) <> 0 ->
  exists pct,
    rate (summary (snd entry)) = Ok pct
    /\ print_summary entry
       = ([ Text (String "010" (Str.upper (fst entry)));
            Text (Str.times "-" 40);
            TotalRuns (total_runs (summary (snd entry)));
            SuccessfulRuns (successful_runs (summary (snd entry)));
            SuccessRate (successful_runs (summary (snd entry)))
              (total_runs (summary (snd entry))) pct ]
          ++ duration_lines (summary (snd entry))
          ++ [ TotalErrors (total_errors (summary (snd entry)));
               TotalWarnings (total_warnings (summary (snd entry))) ],
          Ok tt)%list.
Proof.
  intros Hst Hnz. destruct (rate_some_runs _ Hnz) as [pct Hp].
  exists pct. split; [exact Hp|].
  unfold print_summary, duration_lines, io_bind. simpl. rewrite Hp. simpl.
  destruct Hst as [Hn | (a & m & lo & hi & Ha & Hm & Hlo & Hhi)].
  - rewrite Hn. reflexivity.
  - rewrite Ha, Hm, Hlo, Hhi. simpl.
    now destruct (Qeq_bool a 0).
Qed.

Lemma summary_block_lines_witness :
  print_summary
    ("baseline", mkVersionDirectoryAnalysis "baseline" [] busy_summary)
  = ([ Text (String "010" "BASELINE"); Text (Str.times "-" 40);
       TotalRuns 2; SuccessfulRuns 1; SuccessRate 1 2 50%Q;
       Text "Join duration: N/A"; TotalErrors 3; TotalWarnings 4 ],
     Ok tt).
Proof.
  destruct (summary_block_lines
              ("baseline", mkVersionDirectoryAnalysis "baseline" [] busy_summary))
    as [pct [Hp Hb]].
  - right. now exists 0%Q, 0%Q, 0%Q, 0%Q.
  - discriminate.
  - injection Hp as <-. exact Hb.
Defined.

Section Comparison.

Ltac io_lines :=
  repeat first
    [ apply Forall_nil
    | apply Forall_printed_print; reflexivity
    | apply Forall_printed_bind; [| intros ? ?] ].

Let plain (l : console_line) : Prop := comparative l = false.

Lemma print_summary_plain (entry : string * VersionDirectoryAnalysis) :
  Forall plain (printed (print_summary entry)).
Proof.
  unfold print_summary.
  destruct (truthy (avg_duration (summary (snd entry)))); io_lines.
Qed.

Lemma analyze_versions_plain (rt : runtime) (root : list (string * node))
  (vs : list string) :
  Forall plain (printed (analyze_versions rt root vs)).
Proof.
  induction vs as [|v vs IH]; [apply Forall_nil|].
  simpl. destruct (lookup v root) as [n|]; io_lines; exact IH.
Qed.

Lemma report_plain (results : results_t) :
  lookup "baseline" results = None -> Forall plain (printed (report results)).
Proof.
  intros Hb. unfold report. rewrite Hb.
  io_lines. apply Forall_printed_for_each.
  intros entry _. apply print_summary_plain.
Qed.

End Comparison.

(** X19: when the working directory has no baseline directory, nothing of
    the comparison is printed: no duration, error, warning or success rate
    change, however [main] ends. *)
Theorem no_baseline_no_comparison (rt : runtime) (root : list (string * node)) :
  lookup "baseline" root = None ->
  Forall (fun l => comparative l = false) (printed (main rt root)).
Proof.
  intros Hb. unfold main. apply Forall_printed_bind.
  - apply analyze_versions_plain.
  - intros results H. apply report_plain.
    pose proof (analyze_versions_lookup rt root versions results
                  versions_distinct H "baseline" (or_introl eq_refl)) as Hl.
    now rewrite Hb in Hl.
Qed.

Lemma no_baseline_no_comparison_witness :
  outcome (main rt_example no_baseline_root) = Ok tt
  /\ Forall (fun l => comparative l = false)
       (printed (main rt_example no_baseline_root)).
Proof.
  split; [reflexivity|].
  exact (no_baseline_no_comparison rt_example no_baseline_root eq_refl).
Defined.

Section Changes.

Variable results : results_t.
Variable b d : VersionDirectoryAnalysis.
Variable version : string.
Hypothesis Hb : lookup "baseline" results = Some b.
Hypothesis Hd : lookup version results = Some d.

(** The three lines that close the block of a version compared. *)
Lemma print_comparison_lines (rb rd : Q) :
  rate (summary b) = Ok rb -> rate (summary d) = Ok rd ->
  forall l,
    In l [ ErrorChange (total_errors (summary d) - total_errors (summary b));
           WarningChange
             (total_warnings (summary d) - total_warnings (summary b));
           SuccessRateChange (Qred (rd - rb)) ] ->
    In l (printed (print_comparison results (summary b) version)).
Proof.
  intros Hrb Hrd l Hl. unfold print_comparison. rewrite Hd.
  apply (printed_bind_right _ _ tt); [reflexivity|]. cbv beta.
  apply (printed_bind_right _ _ tt); [apply duration_comparison_ok|]. cbv beta.
  unfold io_bind. simpl. rewrite Hrb, Hrd. simpl.
  destruct Hl as [<-|[<-|[<-|[]]]]; auto.
Qed.

End Changes.

(** X20: when [main] runs to its end and a baseline was analysed, the
    block of every other version analysed shows its error total less the
    baseline's, its warning total less the baseline's, and its success rate
    in percent less the baseline's. *)
Theorem comparison_shows_differences (rt : runtime)
  (root : list (string * node)) (results : results_t)
  (b d : VersionDirectoryAnalysis) (version : string) :
  outcome (analyze_versions rt root versions) = Ok results ->
  outcome (main rt root) = Ok tt ->
  lookup "baseline" results = Some b ->
  In version (tl versions) ->
  lookup version results = Some d ->
  exists rb rd,
    rate (summary b) = Ok rb /\ rate (summary d) = Ok rd
    /\ forall l,
         In l [ ErrorChange
                  (total_errors (summary d) - total_errors (summary b));
                WarningChange
                  (total_warnings (summary d) - total_warnings (summary b));
                SuccessRateChange (Qred (rd - rb)) ] ->
         In l (printed (main rt root)).
Proof.
  intros Ha Hok Hb Hin Hd.
  pose proof (analyze_versions_together _ _ _ _ Ha) as Hst.
  assert (Hrep : outcome (report results) = Ok tt).
  { unfold main in Hok. rewrite outcome_bind, Ha in Hok. exact Hok. }
  assert (Hall : all_have_runs results = true).
  { rewrite (report_outcome results Hst) in Hrep.
    destruct (all_have_runs results); [reflexivity | discriminate]. }
  destruct (all_have_runs_rate results "baseline" b Hall Hb) as [rb Hrb].
  destruct (all_have_runs_rate results version d Hall Hd) as [rd Hrd].
  exists rb, rd. split; [exact Hrb|]. split; [exact Hrd|].
  intros l Hl.
  pose proof (print_comparison_lines results b d version Hd rb rd Hrb Hrd l Hl)
    as Hp.
  unfold main. apply (printed_bind_right _ _ results); [exact Ha|].
  unfold report in Hrep |- *.
  do 3 (apply outcome_bind_ok in Hrep; destruct Hrep as [[] [_ Hrep]]).
  apply outcome_bind_ok in Hrep. destruct Hrep as [[] [Hsum Hrep]].
  do 3 (apply (printed_bind_right _ _ tt); [reflexivity|]; cbv beta).
  apply (printed_bind_right _ _ tt); [exact Hsum|]. cbv beta.
  rewrite Hb in Hrep |- *.
  do 2 (apply outcome_bind_ok in Hrep; destruct Hrep as [[] [_ Hrep]]).
  do 2 (apply (printed_bind_right _ _ tt); [reflexivity|]; cbv beta).
  exact (for_each_printed _ _ version l Hrep Hin Hp).
Qed.

Lemma comparison_shows_differences_witness :
  In (ErrorChange (-1)) (printed (main rt_example two_versions_root))
  /\ In (WarningChange (-1)) (printed (main rt_example two_versions_root))
  /\ In (SuccessRateChange 100%Q) (printed (main rt_example two_versions_root)).
Proof.
  destruct (comparison_shows_differences rt_example two_versions_root _ _ _
              "v0.8.0-beta.2" eq_refl eq_refl eq_refl (or_introl eq_refl)
              eq_refl) as (rb & rd & Hrb & Hrd & H).
  injection Hrb as <-. injection Hrd as <-.
  repeat split; apply H; simpl; auto.
Defined.

(** ** More on the markdown report *)

Section IssueCounts.

Lemma lookup_bump (i k : string) (c : list (string * Z)) :
  lookup k (bump i c)
  = if String.eqb i k
    then Some (match lookup i c with
               | Some n => n + 1
               | None => 1
               end)
    else lookup k c.
Proof.
  induction c as [|[k' n] c IH]; simpl.
  - reflexivity.
  - destruct (String.eqb k' i) eqn:E1; simpl.
    + apply String.eqb_eq in E1. subst k'.
      destruct (String.eqb i k); reflexivity.
    + rewrite IH. destruct (String.eqb k' k) eqn:E2; [|reflexivity].
      apply String.eqb_eq in E2. subst k'.
      rewrite String.eqb_sym in E1. now rewrite E1.
Qed.

Lemma keys_bump (i k : string) (c : list (string * Z)) :
  In k (map fst (bump i c)) -> k = i \/ In k (map fst c).
Proof.
  induction c as [|[k' n] c IH]; simpl.
  - intros [<-|[]]. now left.
  - destruct (String.eqb k' i); simpl.
    + intros [<-|H]; right; [now left | now right].
    + intros [<-|H]; [right; now left|].
      destruct (IH H) as [->|H']; [now left | right; now right].
Qed.

Lemma NoDup_bump (i : string) (c : list (string * Z)) :
  NoDup (map fst c) -> NoDup (map fst (bump i c)).
Proof.
  induction c as [|[k n] c IH]; simpl; intros H.
  - repeat constructor. intros [].
  - inversion H as [|? ? Hk Hc]; subst.
    destruct (String.eqb k i) eqn:E; simpl; [now constructor|].
    constructor; [|now apply IH].
    intros Hin. destruct (keys_bump _ _ _ Hin) as [->|H']; [|contradiction].
    now rewrite String.eqb_refl in E.
Qed.

Lemma sum_bump (i : string) (c : list (string * Z)) :
  Zsum (map snd (bump i c)) = Zsum (map snd c) + 1.
Proof.
  induction c as [|[k n] c IH]; simpl; [reflexivity|].
  destruct (String.eqb k i); simpl; [lia | rewrite IH; lia].
Qed.

Lemma fold_bump (issues : list string) (c : list (string * Z)) (k : string) :
  lookup k (fold_left (fun acc i => bump i acc) issues c)
  = match lookup k c with
    | Some n => Some (n + Z.of_nat (count_label k issues))
    | None =>
        if Nat.eqb (count_label k issues) 0 then None
        else Some (Z.of_nat (count_label k issues))
    end.
Proof.
  revert c. induction issues as [|i issues IH]; intros c.
  - simpl. destruct (lookup k c); [f_equal; lia | reflexivity].
  - cbn [fold_left]. rewrite IH, lookup_bump. unfold count_label. simpl.
    destruct (string_dec i k) as [->|Hne].
    + rewrite String.eqb_refl.
      destruct (lookup k c); cbn [Nat.eqb]; f_equal; lia.
    + apply String.eqb_neq in Hne. rewrite Hne. reflexivity.
Qed.

End IssueCounts.

(** X21: the issue counts of a run row hold each label of the list once,
    with the number of times the list has it, and together count every
    entry of the list; a label the list does not have is not counted. *)
Theorem issue_counts_are_occurrences (issues : list string) :
  NoDup (map fst (count_issues issues))
  /\ (forall label,
        lookup label (count_issues issues)
        = if Nat.eqb (count_label label issues) 0 then None
          else Some (Z.of_nat (count_label label issues)))
  /\ Zsum (map snd (count_issues issues)) = Z.of_nat (List.length issues).
Proof.
  unfold count_issues. repeat split.
  - assert (H : forall c, NoDup (map fst c) ->
                NoDup (map fst (fold_left (fun acc i => bump i acc) issues c))).
    { induction issues as [|i issues IH]; intros c Hc; [exact Hc|].
      cbn [fold_left]. apply IH. now apply NoDup_bump. }
    apply H. constructor.
  - intros label. now rewrite fold_bump.
  - assert (H : forall c,
                Zsum (map snd (fold_left (fun acc i => bump i acc) issues c))
                = Zsum (map snd c) + Z.of_nat (List.length issues)).
    { induction issues as [|i issues IH]; intros c; [simpl; lia|].
      cbn [fold_left]. rewrite IH, sum_bump. simpl List.length. lia. }
    now rewrite H.
Qed.

(** The issue column for three disco box errors and one DNS failure. *)
Example issue_column :
  format_issues (count_issues some_issues)
  = "Disco box error (3), DNS resolution failure (1)".
Proof. reflexivity. Qed.

Section RunRows.

Lemma run_row_outcome (i : Z) (run : TestRunAnalysis) :
  outcome (run_row i run)
  = if row_ready run then Ok tt else Raise TypeError.
Proof.
  unfold run_row, row_ready.
  destruct (cli_analysis run) as [a|]; [|reflexivity].
  rewrite outcome_bind. simpl.
  now destruct (duration_seconds a).
Qed.

Lemma run_rows_outcome (runs : list TestRunAnalysis) (i : Z) :
  outcome (run_rows i runs)
  = if forallb row_ready runs then Ok tt else Raise TypeError.
Proof.
  revert i. induction runs as [|run runs IH]; intros i; [reflexivity|].
  simpl. rewrite outcome_bind, run_row_outcome.
  destruct (row_ready run); simpl; [apply IH | reflexivity].
Qed.

Lemma run_row_number (i : Z) (run : TestRunAnalysis) :
  row_ready run = true ->
  map row_number (printed (run_row i run)) = [Some i].
Proof.
  unfold run_row, row_ready.
  destruct (cli_analysis run) as [a|]; [|discriminate].
  destruct (duration_seconds a) as [d|] eqn:E; [|discriminate].
  intros _. unfold io_bind. simpl. now rewrite E.
Qed.

Lemma run_rows_numbers (runs : list TestRunAnalysis) (i : Z) :
  forallb row_ready runs = true ->
  map row_number (printed (run_rows i runs))
  = map (fun k => Some (i + Z.of_nat k)) (seq 0 (List.length runs)).
Proof.
  revert i. induction runs as [|run runs IH]; intros i H; [reflexivity|].
  simpl in H. apply andb_true_iff in H. destruct H as [Hr Hrest].
  cbn [run_rows List.length seq map].
  rewrite (printed_bind_ok (run_row i run) _ tt).
  - rewrite map_app, (run_row_number i run Hr), (IH (i + 1) Hrest).
    simpl. rewrite Z.add_0_r. f_equal.
    rewrite <- seq_shift, map_map. apply map_ext. intros k. f_equal. lia.
  - rewrite run_row_outcome. now rewrite Hr.
Qed.

End RunRows.

(** X22: the rows of a run table end in [TypeError] as soon as a run has
    no CLI analysis or its CLI analysis no duration, and are printed to the
    last otherwise, numbered from the first number on, one by one. *)
Theorem run_rows_need_cli_durations (runs : list TestRunAnalysis) (i : Z) :
  outcome (run_rows i runs)
  = (if forallb row_ready runs then Ok tt else Raise TypeError)
  /\ (forallb row_ready runs = true ->
      map row_number (printed (run_rows i runs))
      = map (fun k => Some (i + Z.of_nat k)) (seq 0 (List.length runs))).
Proof.
  split; [apply run_rows_outcome | apply run_rows_numbers].
Qed.

Lemma run_rows_need_cli_durations_witness :
  map row_number (printed (run_rows 1 [ run_lasting 4; run_lasting 6 ]))
  = [ Some 1; Some 2 ].
Proof.
  exact (proj2 (run_rows_need_cli_durations [ run_lasting 4; run_lasting 6 ] 1)
           eq_refl).
Defined.

Section ReportFaults.

Lemma for_each_outcomes {L A : Type} (f : A -> io L unit) (l : list A)
  (e : exn) :
  (forall x, In x l -> outcome (f x) = Ok tt \/ outcome (f x) = Raise e) ->
  outcome (for_each f l) = Ok tt \/ outcome (for_each f l) = Raise e.
Proof.
  induction l as [|x l IH]; intros H; [now left|].
  simpl. rewrite outcome_bind.
  destruct (H x (or_introl eq_refl)) as [-> | ->]; [|now right].
  apply IH. intros y Hy. apply H. now right.
Qed.

Variable results : results_t.

Lemma item_version_name (version : string) :
  In version versions -> exists name, item version version_names = Ok name.
Proof.
  intros [<-|[<-|[<-|[<-|[]]]]]; now eexists.
Qed.

Lemma summary_row_outcome (version : string) :
  In version versions ->
  outcome (summary_row results version)
  = match lookup version results with
    | Some d =>
        match avg_duration (summary d), median_duration (summary d),
              min_duration (summary d), max_duration (summary d) with
        | Some _, Some _, Some _, Some _ => Ok tt
        | _, _, _, _ => Raise TypeError
        end
    | None => Ok tt
    end.
Proof.
  intros Hin. unfold summary_row.
  destruct (lookup version results) as [d|]; [|reflexivity].
  destruct (item_version_name version Hin) as [name Hn].
  rewrite outcome_bind. simpl. rewrite Hn.
  destruct (avg_duration (summary d)); [|reflexivity].
  rewrite outcome_bind. simpl.
  destruct (median_duration (summary d)); [|reflexivity].
  rewrite outcome_bind. simpl.
  destruct (min_duration (summary d)); [|reflexivity].
  rewrite outcome_bind. simpl.
  now destruct (max_duration (summary d)).
Qed.

Lemma summary_rows_outcomes :
  outcome (for_each (summary_row results) versions) = Ok tt
  \/ outcome (for_each (summary_row results) versions) = Raise TypeError.
Proof.
  apply for_each_outcomes. intros version Hin.
  rewrite (summary_row_outcome version Hin).
  destruct (lookup version results) as [d|]; [|now left].
  destruct (avg_duration (summary d)), (median_duration (summary d)),
           (min_duration (summary d)), (max_duration (summary d));
    (now left) || (now right).
Qed.

Lemma change_ok (x base : option Q) (q : Q) :
  change x base = Ok q -> x <> None /\ nonzero base.
Proof.
  unfold change, true_div, nonzero.
  destruct x as [a|]; [|discriminate].
  destruct base as [b|]; [|discriminate]. simpl.
  destruct (Qeq_bool b 0); [discriminate|].
  intros _. split; [discriminate | reflexivity].
Qed.

Lemma change_row_ok (baseline : VersionSummary) (version : string)
  (d : VersionDirectoryAnalysis) :
  lookup version results = Some d ->
  outcome (change_row results baseline version) = Ok tt ->
  nonzero (avg_duration baseline) /\ nonzero (median_duration baseline)
  /\ nonzero (min_duration baseline) /\ nonzero (max_duration baseline).
Proof.
  intros Hd. unfold change_row. rewrite Hd. intros H.
  apply outcome_bind_ok in H. destruct H as [name [_ H]].
  apply outcome_bind_ok in H. destruct H as [c1 [H1 H]].
  apply outcome_bind_ok in H. destruct H as [c2 [H2 H]].
  apply outcome_bind_ok in H. destruct H as [c3 [H3 H]].
  apply outcome_bind_ok in H. destruct H as [c4 [H4 _]].
  apply change_ok in H1, H2, H3, H4. tauto.
Qed.

Lemma run_table_ok (version : string) (d : VersionDirectoryAnalysis) :
  lookup version results = Some d ->
  outcome (run_table results version) = Ok tt ->
  forallb row_ready (test_runs d) = true.
Proof.
  intros Hd. unfold run_table. rewrite Hd. intros H.
  apply outcome_bind_ok in H. destruct H as [name [_ H]].
  do 4 (apply outcome_bind_ok in H; destruct H as [[] [_ H]]).
  apply outcome_bind_ok in H. destruct H as [[] [H _]].
  rewrite run_rows_outcome in H.
  now destruct (forallb row_ready (test_runs d)).
Qed.

End ReportFaults.

(** X23: without a baseline among the results the markdown report never
    runs to its end: it ends in [KeyError] where the baseline is asked for,
    after the statistics table, or before that in [TypeError] at a version
    without statistics. *)
Theorem report_needs_baseline (results : results_t) :
  lookup "baseline" results = None ->
  outcome (generate_detailed_report results) = Raise KeyError
  \/ outcome (generate_detailed_report results) = Raise TypeError.
Proof.
  intros Hb. unfold generate_detailed_report.
  do 6 (rewrite outcome_bind; cbn [outcome print snd]).
  rewrite outcome_bind.
  destruct (summary_rows_outcomes results) as [-> | ->]; [|now right].
  do 5 (rewrite outcome_bind; cbn [outcome print snd]).
  rewrite outcome_bind. unfold item. rewrite Hb. now left.
Qed.

Lemma report_needs_baseline_witness :
  generate_detailed_report results_without_baseline
  = ([ Md "# FEDIMINT v0.8.0-beta.2 REGRESSION ANALYSIS - DETAILED REPORT";
       Md EmptyString; Md "## Performance Statistics Summary"; Md EmptyString;
       Md "| Version | Avg (s) | Median (s) | Min (s) | Max (s) | Range (s) | Success Rate |";
       Md "|---------|---------|------------|---------|---------|-----------|--------------|";
       SummaryRow "v0.8.0-beta.2 (self-hosted)" 6%Q 6%Q 6%Q 6%Q 0%Q
         "1/1 (100%)";
       Md EmptyString; Md "## Performance Comparison (vs Baseline)";
       Md EmptyString;
       Md "| Version | Avg Change | Median Change | Min Change | Max Change |";
       Md "|---------|------------|---------------|------------|------------|" ],
     Raise KeyError).
Proof.
  destruct (report_needs_baseline results_without_baseline eq_refl) as [H|H].
  - reflexivity.
  - discriminate H.
Defined.

(** X24: a markdown report that runs to its end had a baseline among the
    results; every version present had its four statistics, and a CLI
    analysis with a duration for each of its runs; and when a version other
    than the baseline was present, none of the four statistics of the
    baseline was zero. *)
Theorem complete_report_conditions (results : results_t) :
  outcome (generate_detailed_report results) = Ok tt ->
  exists b,
    lookup "baseline" results = Some b
    /\ (forall version d,
          In version versions -> lookup version results = Some d ->
          all_stats (summary d)
          /\ forallb row_ready (test_runs d) = true)
    /\ (forall version d,
          In version (tl versions) -> lookup version results = Some d ->
          nonzero (avg_duration (summary b))
          /\ nonzero (median_duration (summary b))
          /\ nonzero (min_duration (summary b))
          /\ nonzero (max_duration (summary b))).
Proof.
  intros H. unfold generate_detailed_report in H.
  do 6 (apply outcome_bind_ok in H; destruct H as [[] [_ H]]).
  apply outcome_bind_ok in H. destruct H as [[] [Hrows H]].
  do 5 (apply outcome_bind_ok in H; destruct H as [[] [_ H]]).
  apply outcome_bind_ok in H. destruct H as [b [Hb H]].
  apply outcome_bind_ok in H. destruct H as [[] [Hchanges H]].
  do 5 (apply outcome_bind_ok in H; destruct H as [[] [_ H]]).
  apply outcome_bind_ok in H. destruct H as [[] [_ H]].
  do 3 (apply outcome_bind_ok in H; destruct H as [[] [_ H]]).
  exists b. split.
  { unfold outcome, lift, item in Hb. simpl in Hb.
    destruct (lookup "baseline" results); [now injection Hb as -> | discriminate]. }
  split.
  - intros version d Hin Hd. split.
    + pose proof (for_each_ok_each _ _ _ Hrows Hin) as Hrow.
      rewrite (summary_row_outcome results version Hin), Hd in Hrow.
      unfold all_stats.
      destruct (avg_duration (summary d)), (median_duration (summary d)),
               (min_duration (summary d)), (max_duration (summary d));
        try discriminate; repeat split; discriminate.
    + pose proof (for_each_ok_each _ _ _ H Hin) as Ht.
      exact (run_table_ok results version d Hd Ht).
  - intros version d Hin Hd.
    pose proof (for_each_ok_each _ _ _ Hchanges Hin) as Hc.
    exact (change_row_ok results (summary b) version d Hd Hc).
Qed.

Lemma complete_report_conditions_witness :
  outcome (generate_detailed_report complete_results) = Ok tt
  /\ exists b,
       lookup "baseline" complete_results = Some b
       /\ nonzero (avg_duration (summary b)).
Proof.
  split; [reflexivity|].
  destruct (complete_report_conditions complete_results eq_refl)
    as (b & Hb & _ & Hnz).
  exists b. split; [exact Hb|].
  exact (proj1 (Hnz "v0.8.0-beta.2" _ (or_introl eq_refl) eq_refl)).
Defined.

(** X26: for a version with runs, of which the successful ones are a part,
    the success rate is computed without fault and lies between 0 and 100
    percent. *)
Theorem success_rate_is_a_percentage (s : VersionSummary) :
  0 <= successful_runs s <= total_runs s ->
  total_runs s <> 0 ->
  exists q, rate s = Ok q /\ (0 <= q /\ q <= 100)%Q.
Proof.
  intros [H0 Hle] Hnz. unfold rate, true_div.
  destruct (Qeq_bool (inject_Z (total_runs s)) 0) eqn:E.
  { apply Qeq_bool_eq in E. unfold Qeq in E. simpl in E. lia. }
  cbn [bind]. eexists. split; [reflexivity|].
  assert (Ht : (0 < inject_Z (total_runs s))%Q)
    by (rewrite <- (Zlt_Qlt 0); lia).
  assert (Hs0 : (0 <= inject_Z (successful_runs s))%Q)
    by (rewrite <- (Zle_Qle 0); lia).
  assert (Hst : (inject_Z (successful_runs s) <= inject_Z (total_runs s))%Q)
    by (rewrite <- Zle_Qle; lia).
  assert (H1 : (0 <= inject_Z (successful_runs s) / inject_Z (total_runs s))%Q)
    by (apply Qle_shift_div_l; [exact Ht | lra]).
  assert (H2 : (inject_Z (successful_runs s) / inject_Z (total_runs s) <= 1)%Q)
    by (apply Qle_shift_div_r; [exact Ht | lra]).
  set (r := (inject_Z (successful_runs s) / inject_Z (total_runs s))%Q) in *.
  pose proof (Qred_correct r) as Hr.
  pose proof (Qred_correct (Qred r * 100)) as Hq.
  set (q := Qred (Qred r * 100)) in *.
  set (r' := Qred r) in *.
  split; lra.
Qed.

Lemma success_rate_is_a_percentage_witness :
  exists q, rate busy_summary = Ok q /\ (0 <= q /\ q <= 100)%Q.
Proof.
  apply (success_rate_is_a_percentage busy_summary); simpl; lia.
Defined.

Lemma duration_when_returned_witness :
  exists r,
    analyze_log_file rt_example "cli.log" (Lines stamped_lines) = Ok r
    /\ duration_seconds r = Some 10%Q.
Proof.
  eexists. split; [reflexivity|].
  exact (proj1 (duration_when_returned rt_example "cli.log" stamped_lines _
                  eq_refl)).
Defined.
